(** * auto_history_pipeline_timecode: fallback synthesizers, segmenter, pipeline

    A shallow embedding of [auto_history_pipeline_timecode.py] and the
    properties of its script synthesizers, its 60-second segmenter, its
    generation strategy and its per-topic pipeline.

    Python [str] values are sequences of Unicode code points; they are
    modelled as lists of code points ([N]).  String literals of the script
    are written as UTF-8 literals and decoded once. *)

From Stdlib Require Import String Ascii DecimalString.
From Stdlib Require Import List NArith ZArith Bool Lia Recdef.
Import ListNotations.

Set Implicit Arguments.

(** ** Python strings *)

Module PyStr.

Definition char := N.
Definition str := list char.

(** UTF-8 decoding of a byte sequence into code points (literals only). *)
Fixpoint utf8_decode (bs : list N) : str :=
  match bs with
  | [] => []
  | b0 :: r0 =>
      if (b0 <? 128)%N then b0 :: utf8_decode r0
      else
        match r0 with
        | [] => [b0]
        | b1 :: r1 =>
            if (b0 <? 224)%N
            then ((b0 - 192) * 64 + (b1 - 128))%N :: utf8_decode r1
            else
              match r1 with
              | [] => [b0; b1]
              | b2 :: r2 =>
                  if (b0 <? 240)%N
                  then ((b0 - 224) * 4096 + (b1 - 128) * 64 + (b2 - 128))%N
                         :: utf8_decode r2
                  else
                    match r2 with
                    | [] => [b0; b1; b2]
                    | b3 :: r3 =>
                        ((b0 - 240) * 262144 + (b1 - 128) * 4096
                         + (b2 - 128) * 64 + (b3 - 128))%N
                          :: utf8_decode r3
                    end
              end
        end
  end.

Fixpoint bytes_of_string (s : String.string) : list N :=
  match s with
  | String.EmptyString => []
  | String.String a r => Ascii.N_of_ascii a :: bytes_of_string r
  end.

(** [u "..."] is the Python string written by the literal. *)
Definition u (s : String.string) : str := utf8_decode (bytes_of_string s).
Arguments u s%_string.

Definition LF : char := 10%N.
Definition SPACE : char := 32%N.
Definition DOT : char := 46%N.
Definition COMMA : char := 44%N.
Definition QUOTE : char := 34%N.
Definition SLASH : char := 47%N.
Definition UNDERSCORE : char := 95%N.

(** Code points that [str.strip()] removes: those for which
    [str.isspace] holds. *)
Definition isspace (c : char) : bool :=
  ((9 <=? c) && (c <=? 13) || (28 <=? c) && (c <=? 32)
   || (c =? 133) || (c =? 160) || (c =? 5760)
   || (8192 <=? c) && (c <=? 8202)
   || (c =? 8232) || (c =? 8233) || (c =? 8239) || (c =? 8287)
   || (c =? 12288))%N.

Fixpoint lstrip (s : str) : str :=
  match s with
  | [] => []
  | c :: r => if isspace c then lstrip r else s
  end.

Definition rstrip (s : str) : str := rev (lstrip (rev s)).

(** [s.strip()] *)
Definition strip (s : str) : str := rstrip (lstrip s).

(** [s.replace(a, b)] for one-character [a] and [b]. *)
Definition replace (a b : char) (s : str) : str :=
  map (fun c => if (c =? a)%N then b else c) s.

(** [s.split(sep)] for a one-character separator: never the empty list. *)
Fixpoint split (sep : char) (s : str) : list str :=
  match s with
  | [] => [[]]
  | c :: r =>
      if (c =? sep)%N then [] :: split sep r
      else
        match split sep r with
        | [] => [[c]]
        | w :: ws => (c :: w) :: ws
        end
  end.

(** [sep.join(xs)] *)
Fixpoint join (sep : str) (xs : list str) : str :=
  match xs with
  | [] => []
  | [x] => x
  | x :: r => x ++ sep ++ join sep r
  end.

(** [s.startswith(p)] *)
Fixpoint startswith (s p : str) : bool :=
  match p, s with
  | [], _ => true
  | _ :: _, [] => false
  | a :: p', b :: s' => (a =? b)%N && startswith s' p'
  end.

(** Truth value of a string: non-empty. *)
Definition truthy (s : str) : bool :=
  match s with [] => false | _ :: _ => true end.

Fixpoint str_eqb (a b : str) : bool :=
  match a, b with
  | [], [] => true
  | x :: a', y :: b' => (x =? y)%N && str_eqb a' b'
  | _, _ => false
  end.

(** [needle in hay] *)
Fixpoint contains (hay needle : str) : bool :=
  startswith hay needle
  || match hay with
     | [] => false
     | _ :: r => contains r needle
     end.

(** [s.endswith(p)] *)
Definition endswith (s p : str) : bool := startswith (rev s) (rev p).

End PyStr.
Import PyStr.
Arguments u s%_string : simpl never.


(** ** Python values and control *)

Module Py.

(** Exceptions: those derived from [Exception] (caught by
    [except Exception]) carry the text of [str(e)]; [SystemExit] is not
    caught by such a handler. *)
Inductive exn : Type :=
| Exception (msg : str)
| SystemExit (code : Z).

Inductive outcome (A : Type) : Type :=
| Ret (a : A)
| Raise (e : exn).
Arguments Ret {A} a.
Arguments Raise {A} e.

Definition bind {A B} (c : outcome A) (k : A -> outcome B) : outcome B :=
  match c with
  | Ret a => k a
  | Raise e => Raise e
  end.

Definition len {A} (l : list A) : Z := Z.of_nat (length l).

(** [l[i]], negative indices counted from the end; [IndexError] outside. *)
Definition getitem {A} (l : list A) (i : Z) : outcome A :=
  let j := if (i <? 0)%Z then (i + len l)%Z else i in
  if (j <? 0)%Z then Raise (Exception (u "list index out of range"))
  else
    match nth_error l (Z.to_nat j) with
    | Some a => Ret a
    | None => Raise (Exception (u "list index out of range"))
    end.

Definition clamp (n i : Z) : Z :=
  if (i <? 0)%Z then Z.max 0 (i + n) else Z.min i n.

(** [l[start:stop]], either bound possibly omitted. *)
Definition slice {A} (l : list A) (start stop : option Z) : list A :=
  let n := len l in
  let lo := match start with None => 0%Z | Some i => clamp n i end in
  let hi := match stop with None => n | Some j => clamp n j end in
  firstn (Z.to_nat (hi - lo)) (skipn (Z.to_nat lo) l).

(** [[x.strip() for x in xs if x.strip()]] *)
Definition stripped_nonempty (xs : list str) : list str :=
  map strip (filter (fun x => truthy (strip x)) xs).

(** [str(n)] for an integer. *)
Definition str_of_int (n : Z) : str :=
  bytes_of_string (DecimalString.NilEmpty.string_of_int (Z.to_int n)).

(** [range(n)] *)
Definition range (n : nat) : list Z := map Z.of_nat (seq 0 n).

(** A [for] loop whose body may raise. *)
Fixpoint for_each {A S} (xs : list A) (body : S -> A -> outcome S) (s : S)
  : outcome S :=
  match xs with
  | [] => Ret s
  | x :: r => bind (body s x) (for_each r body)
  end.

(** Dictionary with string keys, in insertion order; [d[k]]. *)
Fixpoint dict_getitem {V} (d : list (str * V)) (k : str) : outcome V :=
  match d with
  | [] => Raise (Exception ([39%N] ++ k ++ [39%N]))
  | (k', v) :: r => if str_eqb k' k then Ret v else dict_getitem r k
  end.

End Py.
Import Py.

Declare Scope py_scope.
Delimit Scope py_scope with py.
Notation "'let*' x ':=' c 'in' k" := (bind c (fun x => k))
  (at level 10, x name, c at level 100, k at level 200) : py_scope.
Open Scope py_scope.

(** ** Prompt templates *)

(** A template as [str.format] parses it: literal text and named
    replacement fields. *)
Inductive piece : Type :=
| Lit (s : str)
| Field (name : str).

Definition template := list piece.

(** [t.format(NAME=value, ...)]: a field without a keyword argument is a
    [KeyError]. *)
Fixpoint format (t : template) (kwargs : list (str * str)) : outcome str :=
  match t with
  | [] => Ret []
  | Lit s :: r => let* rest := format r kwargs in Ret (s ++ rest)
  | Field name :: r =>
      let* v := dict_getitem kwargs name in
      let* rest := format r kwargs in
      Ret (v ++ rest)
  end.

Definition PROMPT_LONG_vi : template :=
  [ Lit (u "Bạn là một nhà biên soạn nội dung lịch sử. Hãy viết một kịch bản tường thuật dài 300–500 từ về chủ đề: " ++ [QUOTE]);
    Field (u "TOPIC");
    Lit ([QUOTE] ++ u "."
          ++ [LF] ++ u "Yêu cầu:"
          ++ [LF] ++ u "- Mở đầu gây tò mò, có câu hook hấp dẫn."
          ++ [LF] ++ u "- Trình bày mạch lạc theo thời gian, có cao trào."
          ++ [LF] ++ u "- Dùng ngôn từ dễ hiểu, phù hợp video YouTube (độ dài ~5-8 phút khi đọc chậm)."
          ++ [LF] ++ u "- Kết thúc có tính gợi mở để người xem muốn tìm hiểu thêm."
          ++ [LF] ++ u "Ngôn ngữ: Tiếng Việt."
          ++ [LF] ++ u "Trả về plain text.") ].

Definition PROMPT_LONG_en : template :=
  [ Lit (u "You are a historical content writer. Write a 300–500 word narrative script about: " ++ [QUOTE]);
    Field (u "TOPIC");
    Lit ([QUOTE] ++ u "."
          ++ [LF] ++ u "Requirements:"
          ++ [LF] ++ u "- Start with a compelling hook."
          ++ [LF] ++ u "- Present chronologically with a climax."
          ++ [LF] ++ u "- Use clear language suitable for a YouTube narration."
          ++ [LF] ++ u "- End with a thought-provoking closing inviting further exploration."
          ++ [LF] ++ u "Return plain text.") ].

Definition PROMPT_LONG : list (str * template) :=
  [ (u "vi", PROMPT_LONG_vi);
    (u "en", PROMPT_LONG_en) ].

Definition PROMPT_FROM_SUMMARY_vi : template :=
  [ Lit (u "Bạn nhận được một đoạn tóm tắt Wikipedia sau:"
          ++ [LF]
          ++ [LF] ++ [QUOTE]);
    Field (u "SUMMARY");
    Lit ([QUOTE]
          ++ [LF]
          ++ [LF] ++ u "Hãy chuyển nội dung này thành một kịch bản kể chuyện lịch sử (300–400 từ) theo phong cách gần gũi, như một người dẫn chuyện trên video."
          ++ [LF] ++ u "- Giữ tính chính xác nhưng giảm khô khan."
          ++ [LF] ++ u "- Thêm chi tiết thú vị hoặc ngữ cảnh lịch sử nếu thích hợp."
          ++ [LF] ++ u "- Giữ giọng văn hấp dẫn, phù hợp khán giả phổ thông."
          ++ [LF] ++ u "Ngôn ngữ: Tiếng Việt."
          ++ [LF] ++ u "Trả về plain text.") ].

Definition PROMPT_FROM_SUMMARY_en : template :=
  [ Lit (u "You receive the following Wikipedia summary:"
          ++ [LF]
          ++ [LF] ++ [QUOTE]);
    Field (u "SUMMARY");
    Lit ([QUOTE]
          ++ [LF]
          ++ [LF] ++ u "Convert this into a 300–400 word historical storytelling script in a friendly, narrator style suitable for a video."
          ++ [LF] ++ u "- Keep accuracy but reduce dryness."
          ++ [LF] ++ u "- Add interesting details or context where relevant."
          ++ [LF] ++ u "- Maintain an engaging tone for a general audience."
          ++ [LF] ++ u "Language: English."
          ++ [LF] ++ u "Return plain text.") ].

Definition PROMPT_FROM_SUMMARY : list (str * template) :=
  [ (u "vi", PROMPT_FROM_SUMMARY_vi);
    (u "en", PROMPT_FROM_SUMMARY_en) ].

Definition PROMPT_SHORT_vi : template :=
  [ Lit (u "Bạn là storyteller. Viết kịch bản ngắn (100–150 từ) về " ++ [QUOTE]);
    Field (u "TOPIC");
    Lit ([QUOTE] ++ u " để dùng cho video Shorts/TikTok (khoảng 1 phút)."
          ++ [LF] ++ u "Yêu cầu:"
          ++ [LF] ++ u "- Bắt đầu bằng 1 câu hỏi hoặc 1 sự thật gây tò mò."
          ++ [LF] ++ u "- Trình bày nhanh, rõ ràng: 3 ý ngắn (mỗi ý 1 câu)."
          ++ [LF] ++ u "- Kết thúc 1 câu CTA (kêu gọi like/subscribe hoặc " ++ [QUOTE] ++ u "xem tiếp" ++ [QUOTE] ++ u ")."
          ++ [LF] ++ u "Ngôn ngữ: Tiếng Việt."
          ++ [LF] ++ u "Trả về plain text.") ].

Definition PROMPT_SHORT_en : template :=
  [ Lit (u "You are a storyteller. Write a short 100–150 word script about " ++ [QUOTE]);
    Field (u "TOPIC");
    Lit ([QUOTE] ++ u " for a Shorts/TikTok (~1 minute)."
          ++ [LF] ++ u "Requirements:"
          ++ [LF] ++ u "- Start with a question or striking fact."
          ++ [LF] ++ u "- Present 3 concise points (one sentence each)."
          ++ [LF] ++ u "- End with a CTA (subscribe/like or " ++ [QUOTE] ++ u "learn more" ++ [QUOTE] ++ u ")."
          ++ [LF] ++ u "Language: English."
          ++ [LF] ++ u "Return plain text.") ].

Definition PROMPT_SHORT : list (str * template) :=
  [ (u "vi", PROMPT_SHORT_vi);
    (u "en", PROMPT_SHORT_en) ].

(** ** Helpers: the local fallback formatters *)

Definition local_fallback_formatter_long (topic summary lang : str)
  : outcome str :=
  let sents := stripped_nonempty (split DOT (replace LF SPACE summary)) in
  let* intro :=
    match sents with
    | _ :: _ => getitem sents 0
    | [] => Ret (topic ++ u " là một chủ đề lịch sử thú vị.")
    end in
  let middle := join (u " ") (slice sents (Some 1%Z) (Some 6%Z)) in
  let* closing :=
    if (len sents >? 6)%Z then getitem sents 6 else Ret [] in
  if startswith lang (u "vi") then
    Ret (intro ++ u ". " ++ middle ++ u ". " ++ closing
         ++ u ". Nếu bạn muốn tìm hiểu sâu hơn, hãy theo dõi kênh để xem các video tiếp theo.")
  else
    Ret (intro ++ u ". " ++ middle ++ u ". " ++ closing
         ++ u ". If you want to learn more, subscribe for future videos.").

Definition local_fallback_formatter_fromsummary (summary lang : str)
  : outcome str :=
  let sents := stripped_nonempty (split DOT (replace LF SPACE summary)) in
  let pts := slice sents None (Some 6%Z) in
  if startswith lang (u "vi") then
    Ret (join (u " ") pts ++ u " Nguồn: Wikipedia.")
  else
    Ret (join (u " ") pts ++ u " Sources: Wikipedia.").

Definition local_fallback_formatter_short (topic summary lang : str)
  : outcome str :=
  let sents := stripped_nonempty (split DOT (replace LF SPACE summary)) in
  let* p1 :=
    match sents with
    | _ :: _ => getitem sents 0
    | [] => Ret (topic ++ u " có nhiều điều thú vị.")
    end in
  let* p2 := if (len sents >? 1)%Z then getitem sents 1 else Ret [] in
  let* p3 := if (len sents >? 2)%Z then getitem sents 2 else Ret [] in
  if startswith lang (u "vi") then
    let hook := u "Bạn có biết về " ++ topic ++ u "?" in
    let body := u "Ý 1: " ++ p1 ++ u ". Ý 2: " ++ p2 ++ u ". Ý 3: " ++ p3
                ++ u "." in
    let cta := u "Nếu bạn thích, hãy like và theo dõi." in
    Ret (hook ++ [LF; LF] ++ body ++ [LF; LF] ++ cta)
  else
    let hook := u "Did you know about " ++ topic ++ u "?" in
    let body := u "Point 1: " ++ p1 ++ u ". Point 2: " ++ p2
                ++ u ". Point 3: " ++ p3 ++ u "." in
    let cta := u "Like and subscribe for more." in
    Ret (hook ++ [LF; LF] ++ body ++ [LF; LF] ++ cta).

(** ** Timecode splitting for the 1-minute short *)

(** A segment dictionary; the keys [start] and [end] are absent until the
    timing loop sets them. *)
Record Segment : Type := mkSegment {
  role : str;
  text : str;
  duration : Z;
  start : option Z;
  end_ : option Z
}.

(** [while len(points) < 3: points.append("")] *)
Function pad_points (points : list str) {measure (fun p => 3 - length p) points}
  : list str :=
  if (len points <? 3)%Z then pad_points (points ++ [[]]) else points.
Proof.
  intros points H. unfold len in H. apply Z.ltb_lt in H.
  rewrite length_app. cbn [length]. lia.
Defined.

Definition split_script_to_segments (script_text lang : str)
  : outcome (list Segment) :=
  let parts := stripped_nonempty (split LF script_text) in
  let* hook := match parts with _ :: _ => getitem parts 0 | [] => Ret [] end in
  let middle :=
    if (len parts >? 2)%Z then slice parts (Some 1%Z) (Some (-1)%Z)
    else slice parts (Some 1%Z) None in
  let* cta := if (len parts >? 1)%Z then getitem parts (-1) else Ret [] in
  let points :=
    fold_left
      (fun points p =>
         let sents := stripped_nonempty (split DOT p) in
         fold_left
           (fun points s =>
              if (len points <? 3)%Z then points ++ [s] else points)
           sents points)
      middle [] in
  let points := pad_points points in
  let segs := [mkSegment (u "hook") hook 8 None None] in
  let* segs :=
    for_each (range 3)
      (fun segs i =>
         let* t := getitem points i in
         Ret (segs ++ [mkSegment (u "point" ++ str_of_int (i + 1)) t 15
                         None None]))
      segs in
  let segs := segs ++ [mkSegment (u "cta") cta 7 None None] in
  let '(_, segs) :=
    fold_left
      (fun '(cur, done) s =>
         let e := (cur + duration s)%Z in
         (e, done ++ [mkSegment (role s) (text s) (duration s) (Some cur)
                        (Some e)]))
      segs (0%Z, []) in
  Ret segs.

(** ** The outside world *)

(** Result of a call that leaves the program: it returns, or it fails with
    an exception derived from [Exception] whose text is [msg]. *)
Inductive ext (A : Type) : Type :=
| Returned (a : A)
| Failed (msg : str).
Arguments Returned {A} a.
Arguments Failed {A} msg.

(** [scripts = {'long': ..., 'from_summary': ..., 'short': ...}]; a value is
    [None] until it is assigned. *)
Record ScriptSet : Type := mkScripts {
  long : option str;
  from_summary : option str;
  short : option str
}.

(** The [meta] dictionary written as JSON. *)
Record TopicRecord : Type := mkMeta {
  meta_topic : str;
  meta_lang : str;
  meta_summary : str;
  meta_scripts : ScriptSet;
  meta_segments : list Segment
}.

(** The options present on a well-formed command line: each of
    [--topics], [--lang], [--out_folder] with its value when it is given,
    and whether [--no_ai] is given. *)
Record CommandLine : Type := mkCommandLine {
  opt_topics : option str;
  opt_lang : option str;
  opt_out_folder : option str;
  opt_no_ai : bool
}.

(** The [args] namespace of [argparse]. *)
Record Namespace : Type := mkNamespace {
  topics : str;
  lang : str;
  out_folder : str;
  no_ai : bool
}.

(** What the script takes from its process and its libraries.  Calls that
    leave the program are transitions of an abstract [World].
    - [openai_chat_content key model prompt] is
      [openai.ChatCompletion.create(model=model, messages=[user prompt],
      max_tokens=800, temperature=0.7)['choices'][0]['message']['content']]
      with [openai.api_key = key]: [Returned c] when the service answers
      with a text [c] in that place, [Failed] for a service error or an
      answer of another shape;
    - [write_text path chunks] is [open(path, 'w', encoding='utf-8')]
      followed by one [f.write] per chunk;
    - [json_dump path meta] is [open] followed by
      [json.dump(meta, f, ensure_ascii=False, indent=2)];
    - [os_getenv] reads the environment of the process, which the script
      never changes. *)
Record Platform (World : Type) : Type := mkPlatform {
  WIKI_AVAILABLE : bool;
  OPENAI_AVAILABLE : bool;
  os_getenv : str -> option str;
  wikipedia_set_lang : str -> World -> ext unit * World;
  wikipedia_summary : str -> Z -> World -> ext str * World;
  wikipedia_page_content : str -> World -> ext str * World;
  openai_chat_content : str -> str -> str -> World -> ext str * World;
  os_makedirs : str -> World -> ext unit * World;
  os_path_join : str -> str -> str;
  str_upper : str -> str;
  write_text : str -> list str -> World -> ext unit * World;
  json_dump : str -> TopicRecord -> World -> ext unit * World;
  print : list str -> World -> World;
  argparse_usage : World -> World
}.

(** ** Computations that act on the world and may raise *)

Definition M (World A : Type) : Type := World -> outcome A * World.

Module IO.

Section Combinators.
Context {World : Type}.

Definition ret {A} (a : A) : M World A := fun w => (Ret a, w).

Definition raise {A} (e : exn) : M World A := fun w => (Raise e, w).

Definition bindM {A B} (c : M World A) (k : A -> M World B) : M World B :=
  fun w =>
    match c w with
    | (Ret a, w') => k a w'
    | (Raise e, w') => (Raise e, w')
    end.

(** A pure computation that may raise. *)
Definition lift {A} (c : outcome A) : M World A := fun w => (c, w).

(** A call that leaves the program. *)
Definition call {A} (f : World -> ext A * World) : M World A :=
  fun w =>
    match f w with
    | (Returned a, w') => (Ret a, w')
    | (Failed msg, w') => (Raise (Exception msg), w')
    end.

(** An action that cannot fail. *)
Definition act (f : World -> World) : M World unit :=
  fun w => (Ret tt, f w).

(** [try: body  except Exception as e: handler(str(e))] *)
Definition try_except {A} (body : M World A) (handler : str -> M World A)
  : M World A :=
  fun w =>
    match body w with
    | (Raise (Exception msg), w') => handler msg w'
    | r => r
    end.

(** [for x in xs: body(x)] *)
Fixpoint for_ {A} (xs : list A) (body : A -> M World unit) : M World unit :=
  match xs with
  | [] => ret tt
  | x :: r => bindM (body x) (fun _ => for_ r body)
  end.

End Combinators.

End IO.
Import IO.

Declare Scope io_scope.
Delimit Scope io_scope with io.
Notation "x <- c ;; k" := (bindM c (fun x => k))
  (at level 61, c at next level, right associativity) : io_scope.
Notation "' p <- c ;; k" := (bindM c (fun p => k))
  (at level 61, p pattern, c at next level, right associativity) : io_scope.
Notation "c ;; k" := (bindM c (fun _ => k))
  (at level 61, right associativity) : io_scope.

(** [not key] for the value of [os.getenv]. *)
Definition falsy (key : option str) : bool :=
  match key with
  | None => true
  | Some k => negb (truthy k)
  end.

(** A value that must be a string where the script uses it as one. *)
Definition as_str (v : option str) : outcome str :=
  match v with
  | Some s => Ret s
  | None => Raise (Exception (u "NoneType is not a string"))
  end.

(** [s[key]] for a key that the timing loop sets. *)
Definition seg_key (name : str) (v : option Z) : outcome Z :=
  match v with
  | Some z => Ret z
  | None => Raise (Exception ([39%N] ++ name ++ [39%N]))
  end.

(** ** The pipeline *)

Open Scope io_scope.

Section Pipeline.

Context {World : Type} (P : Platform World).

Definition fetch_wikipedia_summary (topic lang : str) (sentences : Z)
  : M World (str * str) :=
  if negb (WIKI_AVAILABLE P) then
    raise (Exception (u "Package wikipedia không có. Cài: pip install wikipedia"))
  else
    call (wikipedia_set_lang P lang) ;;
    summary <- call (wikipedia_summary P topic sentences) ;;
    content <- call (wikipedia_page_content P topic) ;;
    ret (summary, slice content None (Some 5000%Z)).

Definition call_openai (prompt model : str) : M World str :=
  if negb (OPENAI_AVAILABLE P) then
    raise (Exception (u "openai package not installed. pip install openai"))
  else
    let key := os_getenv P (u "OPENAI_API_KEY") in
    match key with
    | Some k =>
        if truthy k then
          content <- call (openai_chat_content P k model prompt) ;;
          ret (strip content)
        else raise (Exception (u "OPENAI_API_KEY not set."))
    | None => raise (Exception (u "OPENAI_API_KEY not set."))
    end.

(** [OPENAI_AVAILABLE and os.getenv("OPENAI_API_KEY")] as a condition. *)
Definition external_enabled : bool :=
  OPENAI_AVAILABLE P && negb (falsy (os_getenv P (u "OPENAI_API_KEY"))).

Definition generate_three_scripts (topic summary lang : str)
  : M World ScriptSet :=
  let lang_key := if startswith lang (u "vi") then u "vi" else u "en" in
  let scripts := mkScripts None None None in
  (* Long narrative *)
  scripts <-
    try_except
      (if external_enabled then
         prompt <- lift (let* t := dict_getitem PROMPT_LONG lang_key in
                         format t [(u "TOPIC", topic)]) ;;
         r <- call_openai prompt (u "gpt-4o-mini") ;;
         ret (mkScripts (Some r) (from_summary scripts) (short scripts))
       else
         r <- lift (local_fallback_formatter_long topic summary lang) ;;
         ret (mkScripts (Some r) (from_summary scripts) (short scripts)))
      (fun e =>
         r <- lift (local_fallback_formatter_long topic summary lang) ;;
         ret (mkScripts (Some r) (from_summary scripts) (short scripts))) ;;
  (* From summary *)
  scripts <-
    try_except
      (if external_enabled then
         prompt <- lift (let* t := dict_getitem PROMPT_FROM_SUMMARY lang_key in
                         format t [(u "SUMMARY", summary)]) ;;
         r <- call_openai prompt (u "gpt-4o-mini") ;;
         ret (mkScripts (long scripts) (Some r) (short scripts))
       else
         r <- lift (local_fallback_formatter_fromsummary summary lang) ;;
         ret (mkScripts (long scripts) (Some r) (short scripts)))
      (fun e =>
         r <- lift (local_fallback_formatter_fromsummary summary lang) ;;
         ret (mkScripts (long scripts) (Some r) (short scripts))) ;;
  (* Short script *)
  scripts <-
    try_except
      (if external_enabled then
         prompt <- lift (let* t := dict_getitem PROMPT_SHORT lang_key in
                         format t [(u "TOPIC", topic)]) ;;
         r <- call_openai prompt (u "gpt-4o-mini") ;;
         ret (mkScripts (long scripts) (from_summary scripts) (Some r))
       else
         r <- lift (local_fallback_formatter_short topic summary lang) ;;
         ret (mkScripts (long scripts) (from_summary scripts) (Some r)))
      (fun e =>
         r <- lift (local_fallback_formatter_short topic summary lang) ;;
         ret (mkScripts (long scripts) (from_summary scripts) (Some r))) ;;
  ret scripts.

(** The chunks written to the human-readable text file. *)
Definition text_document (topic summary : str) (scripts : ScriptSet)
           (segments : list Segment) : outcome (list str) :=
  let* l := as_str (long scripts) in
  let* f := as_str (from_summary scripts) in
  let* s := as_str (short scripts) in
  let head :=
    [ u "# Topic: " ++ topic ++ [LF; LF];
      u "---" ++ [LF; LF];
      u "# Summary (raw)" ++ [LF; LF];
      summary ++ [LF; LF];
      u "---" ++ [LF; LF];
      u "# Scripts" ++ [LF; LF];
      u "## Long narrative" ++ [LF; LF];
      l ++ [LF; LF];
      u "## From summary (story)" ++ [LF; LF];
      f ++ [LF; LF];
      u "## Short script (for Shorts)" ++ [LF; LF];
      s ++ [LF; LF];
      u "---" ++ [LF; LF];
      u "# Segments (timecodes)" ++ [LF; LF] ] in
  for_each segments
    (fun chunks s =>
       let* a := seg_key (u "start") (start s) in
       let* b := seg_key (u "end") (end_ s) in
       Ret (chunks ++ [ str_upper P (role s) ++ u " [" ++ str_of_int a
                        ++ u "s - " ++ str_of_int b ++ u "s]: " ++ text s
                        ++ [LF] ]))
    head.

(** The summary used when Wikipedia cannot be read. *)
Definition summary_placeholder (msg : str) : str :=
  u "[Không lấy được Wikipedia. Lý do: " ++ msg ++ u "]".

Definition process_topic (topic lang out_folder : str) (use_ai : bool)
  : M World (str * str) :=
  call (os_makedirs P out_folder) ;;
  let safe_name := replace SLASH UNDERSCORE (replace SPACE UNDERSCORE topic) in
  let txt_file :=
    os_path_join P out_folder (u "script_" ++ safe_name ++ u ".txt") in
  let json_file :=
    os_path_join P out_folder (u "script_" ++ safe_name ++ u ".json") in
  (* fetch summary *)
  ' (summary, full) <-
    try_except
      (fetch_wikipedia_summary topic lang 6)
      (fun e => ret (summary_placeholder e, [])) ;;
  (* generate scripts *)
  scripts <- generate_three_scripts topic summary lang ;;
  (* produce segments/timecodes from the SHORT script *)
  segments <- lift (let* s := as_str (short scripts) in
                    split_script_to_segments s lang) ;;
  (* save text file *)
  chunks <- lift (text_document topic summary scripts segments) ;;
  call (write_text P txt_file chunks) ;;
  (* save json metadata *)
  let meta := mkMeta topic lang summary scripts segments in
  call (json_dump P json_file meta) ;;
  ret (txt_file, json_file).

(** [parser.parse_args()] for the four declared options: [--topics] is
    required, a missing one is a usage error (exit status 2). *)
Definition parse_args (cmd : CommandLine) : M World Namespace :=
  match opt_topics cmd with
  | None => fun w => (Raise (SystemExit 2), argparse_usage P w)
  | Some t =>
      ret (mkNamespace t
             (match opt_lang cmd with Some l => l | None => u "vi" end)
             (match opt_out_folder cmd with
              | Some o => o
              | None => u "./outputs"
              end)
             (opt_no_ai cmd))
  end.

Definition main (cmd : CommandLine) : M World unit :=
  args <- parse_args cmd ;;
  let topics := stripped_nonempty (split COMMA (topics args)) in
  for_ topics
    (fun t =>
       act (print P [u "Processing:"; t]) ;;
       ' (txt, js) <- process_topic t (lang args) (out_folder args)
                        (negb (no_ai args)) ;;
       act (print P [u "Saved:"; txt; js])) ;;
  act (print P [u "Done."]).

End Pipeline.

(** ** Reference readings used in the statements *)

(** The sentences of a summary: split on the period, trimmed, empty ones
    dropped, after newlines became spaces. *)
Definition sentences (summary : str) : list str :=
  stripped_nonempty (split DOT (replace LF SPACE summary)).

(** The closing sentence of the long fallback, per language. *)
Definition long_cta (lang : str) : str :=
  if startswith lang (u "vi")
  then u "Nếu bạn muốn tìm hiểu sâu hơn, hãy theo dõi kênh để xem các video tiếp theo."
  else u "If you want to learn more, subscribe for future videos.".

(** The attribution suffix of the from-summary fallback, per language. *)
Definition attribution (lang : str) : str :=
  if startswith lang (u "vi")
  then u " Nguồn: Wikipedia."
  else u " Sources: Wikipedia.".

(** The first sentence of the long fallback. *)
Definition long_intro (topic : str) (sents : list str) : str :=
  match sents with
  | s0 :: _ => s0
  | [] => topic ++ u " là một chủ đề lịch sử thú vị."
  end.

(** The long fallback with the middle sentences joined by [sep]. *)
Definition long_layout (sep topic summary lang : str) : str :=
  let sents := sentences summary in
  long_intro topic sents ++ u ". "
  ++ join sep (firstn 5 (skipn 1 sents)) ++ u ". "
  ++ nth 6 sents [] ++ u ". " ++ long_cta lang.

(** The from-summary fallback with the sentences joined by [sep]. *)
Definition fromsummary_layout (sep summary lang : str) : str :=
  join sep (firstn 6 (sentences summary)) ++ attribution lang.

(** The three-point short script. *)
Definition short_layout (topic summary lang : str) : str :=
  let sents := sentences summary in
  let p1 := match sents with
            | s0 :: _ => s0
            | [] => topic ++ u " có nhiều điều thú vị."
            end in
  let p2 := nth 1 sents [] in
  let p3 := nth 2 sents [] in
  if startswith lang (u "vi") then
    (u "Bạn có biết về " ++ topic ++ u "?") ++ [LF; LF]
    ++ (u "Ý 1: " ++ p1 ++ u ". Ý 2: " ++ p2 ++ u ". Ý 3: " ++ p3 ++ u ".")
    ++ [LF; LF] ++ u "Nếu bạn thích, hãy like và theo dõi."
  else
    (u "Did you know about " ++ topic ++ u "?") ++ [LF; LF]
    ++ (u "Point 1: " ++ p1 ++ u ". Point 2: " ++ p2 ++ u ". Point 3: " ++ p3
        ++ u ".")
    ++ [LF; LF] ++ u "Like and subscribe for more.".

(** The non-empty, trimmed lines of a short script. *)
Definition script_lines (script_text : str) : list str :=
  stripped_nonempty (split LF script_text).

(** The lines whose sentences become points: those strictly between the
    first and the last when there are more than two lines, else all lines
    after the first. *)
Definition middle_lines (parts : list str) : list str :=
  if 2 <? length parts then firstn (length parts - 2) (skipn 1 parts)
  else skipn 1 parts.

(** The first three sentences of the middle lines, in line order. *)
Definition point_sentences (middle : list str) : list str :=
  firstn 3 (flat_map (fun p => stripped_nonempty (split DOT p)) middle).

(** The last line, when there are at least two. *)
Definition cta_line (parts : list str) : str :=
  if 1 <? length parts then last parts [] else [].

(** The five timed slots around given texts. *)
Definition timed_layout (hook p1 p2 p3 cta : str) : list Segment :=
  [ mkSegment (u "hook") hook 8 (Some 0%Z) (Some 8%Z);
    mkSegment (u "point1") p1 15 (Some 8%Z) (Some 23%Z);
    mkSegment (u "point2") p2 15 (Some 23%Z) (Some 38%Z);
    mkSegment (u "point3") p3 15 (Some 38%Z) (Some 53%Z);
    mkSegment (u "cta") cta 7 (Some 53%Z) (Some 60%Z) ].

(** The rendered prompt of a variant: the template of the language with
    its field replaced. *)
Definition render_prompt (catalog : list (str * template)) (field lang value : str)
  : outcome str :=
  let lang_key := if startswith lang (u "vi") then u "vi" else u "en" in
  let* t := dict_getitem catalog lang_key in
  format t [(field, value)].

Definition prompt_text (catalog : list (str * template)) (field lang value : str)
  : str :=
  match render_prompt catalog field lang value with
  | Ret p => p
  | Raise _ => []
  end.

Definition MODEL : str := u "gpt-4o-mini".

Section Attempts.

Context {World : Type} (P : Platform World).

(** What one variant ends with: the answer of the external attempt, or
    the fallback text when the attempt raises. *)
Definition variant_result (prompt fallback : str) (w : World)
  : str * World :=
  match call_openai P prompt MODEL w with
  | (Ret r, w') => (r, w')
  | (Raise _, w') => (fallback, w')
  end.

(** The world in which the next variant is generated. *)
Definition world_after (prompt : str) (w : World) : World :=
  snd (call_openai P prompt MODEL w).

(** The external attempt for a prompt fails in world [w]: the package is
    missing, the credential is missing, or the call raises. *)
Definition attempt_fails (prompt : str) (w : World) : Prop :=
  exists e, fst (call_openai P prompt MODEL w) = Raise e.

(** The external attempt answers with nothing but blanks. *)
Definition attempt_blank (prompt : str) (w : World) : Prop :=
  fst (call_openai P prompt MODEL w) = Ret [].

End Attempts.

(** All three entries hold a string. *)
Definition populated (scripts : ScriptSet) : Prop :=
  exists l f s, scripts = mkScripts (Some l) (Some f) (Some s).

(** The three script forms. *)
Inductive Variant : Type := Long | FromSummary | Short.

(** [scripts[variant]] *)
Definition entry (v : Variant) (scripts : ScriptSet) : option str :=
  match v with
  | Long => long scripts
  | FromSummary => from_summary scripts
  | Short => short scripts
  end.

(** The fallback formatter of a variant. *)
Definition fallback (v : Variant) (topic summary lang : str) : outcome str :=
  match v with
  | Long => local_fallback_formatter_long topic summary lang
  | FromSummary => local_fallback_formatter_fromsummary summary lang
  | Short => local_fallback_formatter_short topic summary lang
  end.

(** The prompt sent for a variant. *)
Definition variant_prompt (v : Variant) (topic summary lang : str) : str :=
  match v with
  | Long => prompt_text PROMPT_LONG (u "TOPIC") lang topic
  | FromSummary => prompt_text PROMPT_FROM_SUMMARY (u "SUMMARY") lang summary
  | Short => prompt_text PROMPT_SHORT (u "TOPIC") lang topic
  end.

Section Orchestration.

Context {World : Type} (P : Platform World).

(** The world in which a variant is generated: the variants are generated
    in the order long, from_summary, short. *)
Definition world_before (v : Variant) (topic summary lang : str) (w : World)
  : World :=
  match v with
  | Long => w
  | FromSummary => world_after P (variant_prompt Long topic summary lang) w
  | Short =>
      world_after P (variant_prompt FromSummary topic summary lang)
        (world_after P (variant_prompt Long topic summary lang) w)
  end.

Definition txt_path (out_folder topic : str) : str :=
  os_path_join P out_folder
    (u "script_" ++ replace SLASH UNDERSCORE (replace SPACE UNDERSCORE topic)
     ++ u ".txt").

Definition json_path (out_folder topic : str) : str :=
  os_path_join P out_folder
    (u "script_" ++ replace SLASH UNDERSCORE (replace SPACE UNDERSCORE topic)
     ++ u ".json").

(** The two writes that end the processing of a topic. *)
Definition save_outputs (out_folder : str) (chunks : list str)
           (meta : TopicRecord) : M World (str * str) :=
  call (write_text P (txt_path out_folder (meta_topic meta)) chunks) ;;
  call (json_dump P (json_path out_folder (meta_topic meta)) meta) ;;
  ret (txt_path out_folder (meta_topic meta),
       json_path out_folder (meta_topic meta)).

End Orchestration.

(** No topic is left after trimming and dropping blank entries, or the
    option is missing. *)
Definition no_topics (cmd : CommandLine) : bool :=
  match opt_topics cmd with
  | None => true
  | Some t =>
      match stripped_nonempty (split COMMA t) with
      | [] => true
      | _ :: _ => false
      end
  end.

(** ** A simulated platform, to run the pipeline on concrete inputs *)

Module Sim.

(** What the simulated world records, oldest first. *)
Inductive Event : Type :=
| EvPrint (args : list str)
| EvUsage
| EvMakedirs (path : str)
| EvWiki (topic : str)
| EvChat (prompt : str)
| EvWriteText (path : str) (chunks : list str)
| EvJsonDump (path : str) (meta : TopicRecord).

Definition Trace := list Event.

Definition ascii_upper (s : str) : str :=
  map (fun c => if ((97 <=? c) && (c <=? 122))%N then (c - 32)%N else c) s.

(** [wiki] is the summary Wikipedia serves ([None]: the package is not
    installed); [installed] and [key] are the OpenAI package and
    credential; [chat] is the answer of the generation service. *)
Definition platform (wiki : option str) (installed : bool)
           (key : option str) (chat : ext str) : Platform Trace :=
  {| WIKI_AVAILABLE := match wiki with Some _ => true | None => false end;
     OPENAI_AVAILABLE := installed;
     os_getenv := fun name =>
       if str_eqb name (u "OPENAI_API_KEY") then key else None;
     wikipedia_set_lang := fun _ w => (Returned tt, w);
     wikipedia_summary := fun topic _ w =>
       (match wiki with Some s => Returned s | None => Failed [] end,
        w ++ [EvWiki topic]);
     wikipedia_page_content := fun _ w =>
       (match wiki with Some s => Returned s | None => Failed [] end, w);
     openai_chat_content := fun _ _ prompt w => (chat, w ++ [EvChat prompt]);
     os_makedirs := fun path w => (Returned tt, w ++ [EvMakedirs path]);
     os_path_join := fun a b => a ++ [SLASH] ++ b;
     str_upper := ascii_upper;
     write_text := fun path chunks w =>
       (Returned tt, w ++ [EvWriteText path chunks]);
     json_dump := fun path meta w =>
       (Returned tt, w ++ [EvJsonDump path meta]);
     print := fun args w => w ++ [EvPrint args];
     argparse_usage := fun w => w ++ [EvUsage] |}.

(** Neither Wikipedia nor OpenAI is installed, no credential. *)
Definition offline : Platform Trace :=
  platform None false None (Failed []).

(** OpenAI is installed and configured, and answers with blanks only. *)
Definition blank_service : Platform Trace :=
  platform None true (Some (u "sk-test")) (Returned (u "   ")).

End Sim.

(** ** Further readings and simulated platforms *)

(** The file-name stem of a topic: [topic.replace(' ','_').replace('/','_')]. *)
Definition safe_name (topic : str) : str :=
  replace SLASH UNDERSCORE (replace SPACE UNDERSCORE topic).



(** A text the segmenter can show in a slot: trimmed, on one line. *)
Definition clean (t : str) : Prop := strip t = t /\ ~ In LF t.

(** A blank or a period. *)
Definition blank_or_period (c : char) : bool := isspace c || (c =? DOT)%N.

(** The sentences of the middle lines, in line order. *)
Definition middle_sentences (middle : list str) : list str :=
  flat_map (fun p => stripped_nonempty (split DOT p)) middle.

(** The template is a text that ends with a double quote, the field, and
    a text that starts with a double quote. *)
Definition quotes_field (t : template) (field : str) : bool :=
  match t with
  | [Lit a; Field f; Lit b] =>
      str_eqb f field
      && match rev a with c :: _ => (c =? QUOTE)%N | [] => false end
      && match b with c :: _ => (c =? QUOTE)%N | [] => false end
  | _ => false
  end.

(** Both languages of a catalog quote the field. *)
Definition catalog_quotes (catalog : list (str * template)) (field : str)
  : Prop :=
  exists tv te,
    dict_getitem catalog (u "vi") = Ret tv
    /\ dict_getitem catalog (u "en") = Ret te
    /\ quotes_field tv field = true
    /\ quotes_field te field = true.

(** Making a directory, writing a text file and dumping JSON always
    succeed. *)
Definition filesystem_works {World : Type} (P : Platform World) : Prop :=
  (forall path w, exists w', os_makedirs P path w = (Returned tt, w'))
  /\ (forall path chunks w,
         exists w', write_text P path chunks w = (Returned tt, w'))
  /\ (forall path meta w,
         exists w', json_dump P path meta w = (Returned tt, w')).

(** The first and the last line of the short fallback script, and the
    labels of its three points, per language. *)
Definition short_hook (lang topic : str) : str :=
  if startswith lang (u "vi") then u "Bạn có biết về " ++ topic ++ u "?"
  else u "Did you know about " ++ topic ++ u "?".

Definition short_cta (lang : str) : str :=
  if startswith lang (u "vi") then u "Nếu bạn thích, hãy like và theo dõi."
  else u "Like and subscribe for more.".

Definition point_label (lang : str) (i : nat) : str :=
  if startswith lang (u "vi") then
    match i with 0 => u "Ý 1: " | 1 => u "Ý 2: " | _ => u "Ý 3: " end
  else
    match i with
    | 0 => u "Point 1: "
    | 1 => u "Point 2: "
    | _ => u "Point 3: "
    end.

(** A label, as the segmenter needs it: on one line, without a period,
    with a non-blank character. *)
Definition label_ok (l : str) : bool :=
  negb (existsb (N.eqb DOT) l) && negb (existsb (N.eqb LF) l)
  && existsb (fun c => negb (isspace c)) l.

(** The body line of a short script: three labelled points, each closed
    by a period and separated by a space. *)
Definition body_line (L1 L2 L3 p1 p2 p3 : str) : str :=
  (L1 ++ p1) ++ DOT :: (SPACE :: L2 ++ p2) ++ DOT :: (SPACE :: L3 ++ p3)
  ++ [DOT].

Module Faults.

(** A simulated platform whose directory creation, text write or JSON
    dump fail with the given messages. *)
Definition with_faults (mk txt js : option str) (p : Platform Sim.Trace)
  : Platform Sim.Trace :=
  {| WIKI_AVAILABLE := WIKI_AVAILABLE p;
     OPENAI_AVAILABLE := OPENAI_AVAILABLE p;
     os_getenv := os_getenv p;
     wikipedia_set_lang := wikipedia_set_lang p;
     wikipedia_summary := wikipedia_summary p;
     wikipedia_page_content := wikipedia_page_content p;
     openai_chat_content := openai_chat_content p;
     os_makedirs := fun path w =>
       match mk with
       | Some msg => (Failed msg, w)
       | None => os_makedirs p path w
       end;
     os_path_join := os_path_join p;
     str_upper := str_upper p;
     write_text := fun path chunks w =>
       match txt with
       | Some msg => (Failed msg, w)
       | None => write_text p path chunks w
       end;
     json_dump := fun path meta w =>
       match js with
       | Some msg => (Failed msg, w)
       | None => json_dump p path meta w
       end;
     print := print p;
     argparse_usage := argparse_usage p |}.

(** The output folder cannot be made. *)
Definition no_folder : Platform Sim.Trace :=
  with_faults (Some (u "Permission denied")) None None Sim.offline.

(** The text file cannot be written. *)
Definition no_text : Platform Sim.Trace :=
  with_faults None (Some (u "No space left on device")) None Sim.offline.

(** The text file is written, the JSON dump fails. *)
Definition no_json : Platform Sim.Trace :=
  with_faults None None (Some (u "No space left on device")) Sim.offline.

(** Wikipedia serves a summary; OpenAI is installed and configured and
    answers every prompt with the same padded text. *)
Definition online : Platform Sim.Trace :=
  Sim.platform (Some (u "Rome was a city. It grew.")) true
    (Some (u "sk-test")) (Returned (u "  Story. Told.  ")).

End Faults.

(** * Properties *)

(** ** Facts about the Python operations *)

Section ListFacts.

Variable A : Type.
Implicit Types (l : list A) (i : Z).

Lemma len_nonneg l : (0 <= len l)%Z.
Proof. unfold len. lia. Qed.

(** An index within bounds reads the element and does not raise. *)
Lemma getitem_nth l i d :
  (0 <= i < len l)%Z -> getitem l i = Ret (nth (Z.to_nat i) l d).
Proof.
  intros [Hlo Hhi]. unfold getitem, len in *.
  destruct (i <? 0)%Z eqn:Hneg; [apply Z.ltb_lt in Hneg; lia|].
  rewrite Hneg.
  destruct (nth_error l (Z.to_nat i)) as [a|] eqn:Hn.
  - f_equal. symmetry. now apply nth_error_nth.
  - apply nth_error_None in Hn. lia.
Qed.

Lemma getitem_head a l : getitem (a :: l) 0 = Ret a.
Proof. reflexivity. Qed.

(** [l[-1]] of a non-empty list is its last element. *)
Lemma getitem_last l d : l <> [] -> getitem l (-1) = Ret (last l d).
Proof.
  intros Hne. unfold getitem. cbn [Z.ltb Z.compare].
  destruct l as [|a r]; [congruence|].
  assert (Hlen : (-1 + len (a :: r) = Z.of_nat (length r))%Z)
    by (unfold len; cbn [length]; lia).
  rewrite Hlen.
  destruct (Z.of_nat (length r) <? 0)%Z eqn:Hneg;
    [apply Z.ltb_lt in Hneg; lia|].
  replace (Z.to_nat (Z.of_nat (length r))) with (length r) by lia.
  assert (Hl : nth_error (a :: r) (length r) = Some (last (a :: r) d)).
  { clear. revert a. induction r as [|b r IH]; intros a; [reflexivity|].
    cbn [length nth_error]. rewrite IH. reflexivity. }
  now rewrite Hl.
Qed.

Lemma firstn_beyond l n m :
  length l <= n -> length l <= m -> firstn n l = firstn m l.
Proof. intros Hn Hm. now rewrite !firstn_all2. Qed.

(** [l[a:b]] for [0 <= a <= b] keeps [b - a] elements after the first
    [a]. *)
Lemma slice_between l (a b : nat) :
  a <= b ->
  slice l (Some (Z.of_nat a)) (Some (Z.of_nat b))
  = firstn (b - a) (skipn a l).
Proof.
  intros Hab. unfold slice, clamp, len.
  destruct (Z.of_nat a <? 0)%Z eqn:Ha; [apply Z.ltb_lt in Ha; lia|].
  destruct (Z.of_nat b <? 0)%Z eqn:Hb; [apply Z.ltb_lt in Hb; lia|].
  destruct (Nat.le_gt_cases (length l) a) as [Hla|Hla].
  - replace (Z.to_nat (Z.min (Z.of_nat a) (Z.of_nat (length l))))
      with (length l) by lia.
    rewrite skipn_all, (skipn_all2 l) by lia. now rewrite !firstn_nil.
  - replace (Z.to_nat (Z.min (Z.of_nat a) (Z.of_nat (length l))))
      with a by lia.
    destruct (Nat.le_gt_cases b (length l)) as [Hlb|Hlb].
    + f_equal. lia.
    + apply firstn_beyond; rewrite length_skipn; lia.
Qed.

(** [l[:b]] keeps the first [b] elements. *)
Lemma slice_upto l (b : nat) :
  slice l None (Some (Z.of_nat b)) = firstn b l.
Proof.
  unfold slice, clamp, len.
  destruct (Z.of_nat b <? 0)%Z eqn:Hb; [apply Z.ltb_lt in Hb; lia|].
  cbn [Z.to_nat skipn].
  destruct (Nat.le_gt_cases b (length l)) as [Hlb|Hlb].
  - f_equal. lia.
  - apply firstn_beyond; lia.
Qed.

(** [l[a:]] drops the first [a] elements. *)
Lemma slice_from l (a : nat) :
  slice l (Some (Z.of_nat a)) None = skipn a l.
Proof.
  unfold slice, clamp, len.
  destruct (Z.of_nat a <? 0)%Z eqn:Ha; [apply Z.ltb_lt in Ha; lia|].
  destruct (Nat.le_gt_cases (length l) a) as [Hla|Hla].
  - replace (Z.to_nat (Z.min (Z.of_nat a) (Z.of_nat (length l))))
      with (length l) by lia.
    rewrite skipn_all, (skipn_all2 l) by lia. apply firstn_nil.
  - replace (Z.to_nat (Z.min (Z.of_nat a) (Z.of_nat (length l))))
      with a by lia.
    apply firstn_all2. rewrite length_skipn. lia.
Qed.

(** [l[1:-1]] of a list of at least two elements drops both ends. *)
Lemma slice_inner l :
  2 <= length l ->
  slice l (Some 1%Z) (Some (-1)%Z) = firstn (length l - 2) (skipn 1 l).
Proof.
  intros Hl. unfold slice, clamp, len. cbn [Z.ltb Z.compare].
  f_equal; [lia | f_equal; lia].
Qed.

End ListFacts.

Section StringFacts.

Implicit Types (s t : str).

Lemma truthy_app_l s t : truthy s = true -> truthy (s ++ t) = true.
Proof. now destruct s. Qed.

Lemma truthy_app_r s t : truthy t = true -> truthy (s ++ t) = true.
Proof. destruct s; [trivial | reflexivity]. Qed.

Lemma truthy_nonempty s : truthy s = true <-> s <> [].
Proof. destruct s; cbn; split; congruence. Qed.

(** Replacing newlines by spaces leaves no newline to replace. *)
Lemma replace_newlines_idempotent s :
  replace LF SPACE (replace LF SPACE s) = replace LF SPACE s.
Proof.
  unfold replace. rewrite map_map. apply map_ext. intros c.
  destruct (c =? LF)%N eqn:Hc; [reflexivity | now rewrite Hc].
Qed.

(** A string occurs in any text built around it. *)
Lemma startswith_app s t : startswith (s ++ t) s = true.
Proof.
  induction s as [|c s IH]; [now destruct t|].
  cbn. now rewrite N.eqb_refl.
Qed.

Lemma contains_prefix s t : startswith s t = true -> contains s t = true.
Proof. intros H. destruct s; cbn [contains]; now rewrite H. Qed.

Lemma contains_app a s b : contains (a ++ s ++ b) s = true.
Proof.
  induction a as [|c a IH].
  - cbn [app]. apply contains_prefix, startswith_app.
  - cbn [app contains]. rewrite IH. apply orb_true_r.
Qed.

Lemma endswith_app s t : endswith (s ++ t) t = true.
Proof. unfold endswith. rewrite rev_app_distr. apply startswith_app. Qed.

End StringFacts.

(** ** The fallback formatters in closed form *)

(** [l[k] if len(l) > k else ""] never raises. *)
Lemma guarded_getitem (l : list str) (k : nat) :
  (if (len l >? Z.of_nat k)%Z then getitem l (Z.of_nat k) else Ret [])
  = Ret (nth k l []).
Proof.
  unfold len. destruct (Z.of_nat (length l) >? Z.of_nat k)%Z eqn:H.
  - rewrite (@getitem_nth _ l _ []), Nat2Z.id; [reflexivity|].
    unfold len. apply Z.gtb_lt in H. lia.
  - rewrite nth_overflow; [reflexivity|].
    rewrite Z.gtb_ltb in H. apply Z.ltb_ge in H. lia.
Qed.

(** The closing sentences written after the period of the third part. *)
Lemma long_tail_vi :
  u ". Nếu bạn muốn tìm hiểu sâu hơn, hãy theo dõi kênh để xem các video tiếp theo."
  = u ". " ++ u "Nếu bạn muốn tìm hiểu sâu hơn, hãy theo dõi kênh để xem các video tiếp theo.".
Proof. vm_compute. reflexivity. Qed.

Lemma long_tail_en :
  u ". If you want to learn more, subscribe for future videos."
  = u ". " ++ u "If you want to learn more, subscribe for future videos.".
Proof. vm_compute. reflexivity. Qed.

Lemma long_formatter_eq topic summary lang :
  local_fallback_formatter_long topic summary lang
  = Ret (long_layout (u " ") topic summary lang).
Proof.
  unfold local_fallback_formatter_long, long_layout, long_cta.
  fold (sentences summary). set (sents := sentences summary).
  replace (match sents with
           | [] => Ret (topic ++ u " là một chủ đề lịch sử thú vị.")
           | _ :: _ => getitem sents 0
           end) with (Ret (long_intro topic sents)) by now destruct sents.
  cbn [bind].
  change 6%Z with (Z.of_nat 6). rewrite guarded_getitem. cbn [bind].
  change 1%Z with (Z.of_nat 1). rewrite slice_between by lia.
  change (6 - 1) with 5.
  destruct (startswith lang (u "vi"));
    [rewrite long_tail_vi | rewrite long_tail_en]; reflexivity.
Qed.

Lemma fromsummary_formatter_eq summary lang :
  local_fallback_formatter_fromsummary summary lang
  = Ret (fromsummary_layout (u " ") summary lang).
Proof.
  unfold local_fallback_formatter_fromsummary, fromsummary_layout, attribution.
  fold (sentences summary).
  change 6%Z with (Z.of_nat 6). rewrite slice_upto.
  destruct (startswith lang (u "vi")); reflexivity.
Qed.

Lemma short_formatter_eq topic summary lang :
  local_fallback_formatter_short topic summary lang
  = Ret (short_layout topic summary lang).
Proof.
  unfold local_fallback_formatter_short, short_layout.
  fold (sentences summary). set (sents := sentences summary).
  replace (match sents with
           | [] => Ret (topic ++ u " có nhiều điều thú vị.")
           | _ :: _ => getitem sents 0
           end)
    with (Ret (match sents with
               | s0 :: _ => s0
               | [] => topic ++ u " có nhiều điều thú vị."
               end)) by now destruct sents.
  cbn [bind].
  change 1%Z with (Z.of_nat 1). rewrite guarded_getitem. cbn [bind].
  change 2%Z with (Z.of_nat 2). rewrite guarded_getitem. cbn [bind].
  destruct (startswith lang (u "vi")); reflexivity.
Qed.

(** ** The segmenter in closed form *)

Section SegmenterFacts.

Implicit Types (points sents middle parts : list str).

Lemma firstn_firstn_app (A : Type) (n : nat) (x y : list A) :
  firstn n (firstn n x ++ y) = firstn n (x ++ y).
Proof.
  destruct (Nat.le_gt_cases (length x) n) as [H|H].
  - now rewrite (firstn_all2 x).
  - rewrite !firstn_app, firstn_firstn, length_firstn.
    replace (Nat.min n n) with n by lia.
    replace (n - Nat.min n (length x)) with 0 by lia.
    replace (n - length x) with 0 by lia.
    reflexivity.
Qed.

(** The inner loop appends sentences while fewer than three are held. *)
Lemma inner_loop_eq sents points :
  length points <= 3 ->
  fold_left
    (fun points s => if (len points <? 3)%Z then points ++ [s] else points)
    sents points
  = firstn 3 (points ++ sents).
Proof.
  revert points. induction sents as [|s r IH]; intros points Hp.
  - cbn [fold_left]. rewrite app_nil_r. symmetry. now apply firstn_all2.
  - cbn [fold_left].
    destruct (len points <? 3)%Z eqn:Hlt; unfold len in Hlt.
    + apply Z.ltb_lt in Hlt. rewrite IH.
      * now rewrite <- app_assoc.
      * rewrite length_app. cbn [length]. lia.
    + apply Z.ltb_ge in Hlt. rewrite IH by assumption.
      rewrite !firstn_app.
      replace (3 - length points) with 0 by lia. reflexivity.
Qed.

Lemma points_loop_eq middle points :
  length points <= 3 ->
  fold_left
    (fun points p =>
       let sents := stripped_nonempty (split DOT p) in
       fold_left
         (fun points s =>
            if (len points <? 3)%Z then points ++ [s] else points)
         sents points)
    middle points
  = firstn 3
      (points ++ flat_map (fun p => stripped_nonempty (split DOT p)) middle).
Proof.
  revert points. induction middle as [|p r IH]; intros points Hp.
  - cbn [fold_left flat_map]. rewrite app_nil_r. symmetry.
    now apply firstn_all2.
  - cbn [fold_left flat_map]. cbv zeta. rewrite inner_loop_eq by assumption.
    rewrite IH by (rewrite length_firstn; lia).
    now rewrite firstn_firstn_app, <- app_assoc.
Qed.

(** The padding loop ends, with three entries. *)
Lemma pad_points_three points :
  length points <= 3 ->
  pad_points points = [nth 0 points []; nth 1 points []; nth 2 points []].
Proof.
  intros Hp.
  destruct points as [|a [|b [|c [|d r]]]];
    [ | | | | cbn [length] in Hp; lia ];
    repeat (rewrite pad_points_equation; unfold len; cbn);
    reflexivity.
Qed.

Lemma middle_eq parts :
  (if (len parts >? 2)%Z then slice parts (Some 1%Z) (Some (-1)%Z)
   else slice parts (Some 1%Z) None)
  = middle_lines parts.
Proof.
  unfold middle_lines, len.
  destruct (Z.of_nat (length parts) >? 2)%Z eqn:H.
  - apply Z.gtb_lt in H.
    replace (2 <? length parts) with true by (symmetry; apply Nat.ltb_lt; lia).
    apply slice_inner. lia.
  - rewrite Z.gtb_ltb in H. apply Z.ltb_ge in H.
    replace (2 <? length parts) with false
      by (symmetry; apply Nat.ltb_ge; lia).
    change 1%Z with (Z.of_nat 1). apply slice_from.
Qed.

Lemma cta_eq parts :
  (if (len parts >? 1)%Z then getitem parts (-1) else Ret [])
  = Ret (cta_line parts).
Proof.
  unfold cta_line, len.
  destruct (Z.of_nat (length parts) >? 1)%Z eqn:H.
  - apply Z.gtb_lt in H.
    replace (1 <? length parts) with true by (symmetry; apply Nat.ltb_lt; lia).
    apply getitem_last. destruct parts; [cbn in H; lia | discriminate].
  - rewrite Z.gtb_ltb in H. apply Z.ltb_ge in H.
    replace (1 <? length parts) with false
      by (symmetry; apply Nat.ltb_ge; lia).
    reflexivity.
Qed.

(** The segmenter never raises; its result is the fixed layout around the
    texts it extracts. *)
Lemma split_script_to_segments_eq script_text lang :
  let parts := script_lines script_text in
  let pts := point_sentences (middle_lines parts) in
  split_script_to_segments script_text lang
  = Ret (timed_layout (hd [] parts) (nth 0 pts []) (nth 1 pts [])
           (nth 2 pts []) (cta_line parts)).
Proof.
  intros parts pts. unfold split_script_to_segments.
  fold (script_lines script_text). fold parts.
  replace (match parts with [] => Ret [] | _ :: _ => getitem parts 0 end)
    with (Ret (hd [] parts)) by now destruct parts.
  cbn [bind]. rewrite middle_eq, cta_eq. cbn [bind].
  rewrite points_loop_eq by (cbn; lia). cbn [app].
  fold (point_sentences (middle_lines parts)). fold pts.
  rewrite pad_points_three by (unfold pts, point_sentences;
                                rewrite length_firstn; lia).
  generalize (hd [] parts) (nth 0 pts []) (nth 1 pts []) (nth 2 pts [])
    (cta_line parts).
  intros h a b c t. vm_compute. reflexivity.
Qed.

End SegmenterFacts.

(** ** The generation strategy *)

Section GenerationFacts.

Context {World : Type} (P : Platform World).
Implicit Types (w : World) (topic summary lang prompt : str).

Lemma render_prompt_long lang topic :
  render_prompt PROMPT_LONG (u "TOPIC") lang topic
  = Ret (prompt_text PROMPT_LONG (u "TOPIC") lang topic).
Proof.
  unfold prompt_text, render_prompt.
  destruct (startswith lang (u "vi")); vm_compute; reflexivity.
Qed.

Lemma render_prompt_from_summary lang summary :
  render_prompt PROMPT_FROM_SUMMARY (u "SUMMARY") lang summary
  = Ret (prompt_text PROMPT_FROM_SUMMARY (u "SUMMARY") lang summary).
Proof.
  unfold prompt_text, render_prompt.
  destruct (startswith lang (u "vi")); vm_compute; reflexivity.
Qed.

Lemma render_prompt_short lang topic :
  render_prompt PROMPT_SHORT (u "TOPIC") lang topic
  = Ret (prompt_text PROMPT_SHORT (u "TOPIC") lang topic).
Proof.
  unfold prompt_text, render_prompt.
  destruct (startswith lang (u "vi")); vm_compute; reflexivity.
Qed.

(** [call_openai] returns a string or raises an [Exception]. *)
Lemma call_openai_cases prompt w :
  (exists r w', call_openai P prompt MODEL w = (Ret r, w'))
  \/ (exists msg w', call_openai P prompt MODEL w = (Raise (Exception msg), w')).
Proof.
  unfold call_openai.
  destruct (OPENAI_AVAILABLE P); cbn [negb].
  2: { right. eexists _, _. reflexivity. }
  destruct (os_getenv P (u "OPENAI_API_KEY")) as [k|].
  2: { right. eexists _, _. reflexivity. }
  destruct (truthy k).
  2: { right. eexists _, _. reflexivity. }
  unfold bindM, call, ret.
  destruct (openai_chat_content P k MODEL prompt w) as [[c|msg] w'].
  - left. eexists _, _. reflexivity.
  - right. eexists _, _. reflexivity.
Qed.

(** Without the package or without the credential, the call raises and
    nothing leaves the program. *)
Lemma call_openai_disabled prompt w :
  external_enabled P = false ->
  exists msg, call_openai P prompt MODEL w = (Raise (Exception msg), w).
Proof.
  unfold external_enabled, call_openai, falsy.
  destruct (OPENAI_AVAILABLE P); cbn [negb andb].
  2: { intros _. eexists. reflexivity. }
  destruct (os_getenv P (u "OPENAI_API_KEY")) as [k|]; cbn [negb].
  2: { intros _. eexists. reflexivity. }
  destruct (truthy k); cbn [negb]; [discriminate|].
  intros _. eexists. reflexivity.
Qed.

(** One [try]/[except] block of the strategy. *)
Lemma attempt_eq (mk fbc : outcome str) (p fb : str)
      (set : str -> ScriptSet) w :
  mk = Ret p -> fbc = Ret fb ->
  try_except
    (if external_enabled P then
       prompt <- lift mk ;;
       r <- call_openai P prompt MODEL ;;
       ret (set r)
     else
       r <- lift fbc ;;
       ret (set r))
    (fun e => r <- lift fbc ;; ret (set r)) w
  = (Ret (set (fst (variant_result P p fb w))),
     snd (variant_result P p fb w)).
Proof.
  intros -> ->. unfold variant_result, try_except.
  destruct (external_enabled P) eqn:Hen.
  - unfold bindM at 1. unfold lift at 1. unfold bindM at 1.
    destruct (call_openai_cases p w) as [(r & w' & H)|(msg & w' & H)];
      rewrite H; reflexivity.
  - destruct (call_openai_disabled p w Hen) as [msg H]. rewrite H.
    reflexivity.
Qed.

(** The strategy is three attempts in sequence; it never raises. *)
Lemma generate_three_scripts_eq topic summary lang w :
  let pL := prompt_text PROMPT_LONG (u "TOPIC") lang topic in
  let pF := prompt_text PROMPT_FROM_SUMMARY (u "SUMMARY") lang summary in
  let pS := prompt_text PROMPT_SHORT (u "TOPIC") lang topic in
  let rL := variant_result P pL (long_layout (u " ") topic summary lang) w in
  let rF := variant_result P pF (fromsummary_layout (u " ") summary lang)
              (snd rL) in
  let rS := variant_result P pS (short_layout topic summary lang) (snd rF) in
  generate_three_scripts P topic summary lang w
  = (Ret (mkScripts (Some (fst rL)) (Some (fst rF)) (Some (fst rS))), snd rS).
Proof.
  intros pL pF pS rL rF rS. unfold generate_three_scripts.
  fold (render_prompt PROMPT_LONG (u "TOPIC") lang topic).
  fold (render_prompt PROMPT_FROM_SUMMARY (u "SUMMARY") lang summary).
  fold (render_prompt PROMPT_SHORT (u "TOPIC") lang topic).
  fold MODEL. cbv zeta. cbn [long from_summary short].
  unfold bindM at 1.
  rewrite (attempt_eq
             (fun r => mkScripts (Some r) None None) w
             (render_prompt_long lang topic)
             (long_formatter_eq topic summary lang)).
  fold pL. fold rL.
  unfold bindM at 1. cbn [long from_summary short].
  rewrite (attempt_eq
             (fun r => mkScripts (Some (fst rL)) (Some r) None) (snd rL)
             (render_prompt_from_summary lang summary)
             (fromsummary_formatter_eq summary lang)).
  fold pF. fold rF.
  unfold bindM at 1. cbn [long from_summary short].
  rewrite (attempt_eq
             (fun r => mkScripts (Some (fst rL)) (Some (fst rF)) (Some r))
             (snd rF)
             (render_prompt_short lang topic)
             (short_formatter_eq topic summary lang)).
  reflexivity.
Qed.

End GenerationFacts.

(** ** The fallback texts are never empty *)

Lemma long_layout_truthy sep topic summary lang :
  truthy (long_layout sep topic summary lang) = true.
Proof.
  unfold long_layout. apply truthy_app_r, truthy_app_l. reflexivity.
Qed.

Lemma fromsummary_layout_truthy sep summary lang :
  truthy (fromsummary_layout sep summary lang) = true.
Proof.
  unfold fromsummary_layout, attribution. apply truthy_app_r.
  destruct (startswith lang (u "vi")); reflexivity.
Qed.

Lemma short_layout_truthy topic summary lang :
  truthy (short_layout topic summary lang) = true.
Proof.
  unfold short_layout.
  destruct (startswith lang (u "vi"));
    apply truthy_app_l, truthy_app_l; reflexivity.
Qed.

(** ** The per-topic pipeline *)

Section PipelineFacts.

Context {World : Type} (P : Platform World).
Implicit Types (w : World) (topic summary lang out_folder : str).

Lemma variant_result_world prompt fb w :
  snd (variant_result P prompt fb w) = world_after P prompt w.
Proof.
  unfold variant_result, world_after.
  now destruct (call_openai P prompt MODEL w) as [[r|e] w'].
Qed.

Lemma variant_result_fails prompt fb w :
  attempt_fails P prompt w -> fst (variant_result P prompt fb w) = fb.
Proof.
  unfold variant_result, attempt_fails. intros [e H].
  destruct (call_openai P prompt MODEL w) as [[r|e'] w']; cbn in *;
    [discriminate | reflexivity].
Qed.

Lemma variant_result_nonempty prompt fb w :
  truthy fb = true ->
  fst (variant_result P prompt fb w) <> [] \/ attempt_blank P prompt w.
Proof.
  unfold variant_result, attempt_blank. intros Hfb.
  destruct (call_openai P prompt MODEL w) as [[r|e'] w']; cbn.
  - destruct r; [now right | left; discriminate].
  - left. now apply truthy_nonempty.
Qed.

Lemma disabled_attempt_fails prompt w :
  external_enabled P = false -> attempt_fails P prompt w.
Proof.
  intros H. destruct (call_openai_disabled P prompt w H) as [msg E].
  exists (Exception msg). now rewrite E.
Qed.

(** The text document of a populated script set and a timed layout. *)
Lemma text_document_ok topic summary l f s h a b c t :
  exists chunks,
    text_document P topic summary (mkScripts (Some l) (Some f) (Some s))
      (timed_layout h a b c t) = Ret chunks.
Proof.
  eexists. unfold text_document, timed_layout.
  cbn [as_str bind long from_summary short for_each seg_key start end_].
  reflexivity.
Qed.

(** After the directory is made and a summary is at hand, the pipeline
    reaches its two writes with a complete record. *)
Lemma process_topic_reaches_writes topic lang out_folder use_ai w w1 w2
      summary full :
  os_makedirs P out_folder w = (Returned tt, w1) ->
  try_except (fetch_wikipedia_summary P topic lang 6)
    (fun e => ret (summary_placeholder e, [])) w1
  = (Ret (summary, full), w2) ->
  exists scripts segments chunks w3,
    generate_three_scripts P topic summary lang w2 = (Ret scripts, w3)
    /\ populated scripts
    /\ (exists h a b c t, segments = timed_layout h a b c t)
    /\ process_topic P topic lang out_folder use_ai w
       = save_outputs P out_folder chunks
           (mkMeta topic lang summary scripts segments) w3.
Proof.
  intros Hmk Hfetch.
  pose proof (generate_three_scripts_eq P topic summary lang w2) as Hgen.
  cbv zeta in Hgen.
  set (rL := variant_result P _ _ w2) in Hgen.
  set (rF := variant_result P _ _ (snd rL)) in Hgen.
  set (rS := variant_result P _ _ (snd rF)) in Hgen.
  pose proof (split_script_to_segments_eq (fst rS) lang) as Hseg.
  cbv zeta in Hseg.
  set (segments := timed_layout _ _ _ _ _) in Hseg.
  destruct (text_document_ok topic summary (fst rL) (fst rF) (fst rS)
              (hd [] (script_lines (fst rS)))
              (nth 0 (point_sentences (middle_lines (script_lines (fst rS)))) [])
              (nth 1 (point_sentences (middle_lines (script_lines (fst rS)))) [])
              (nth 2 (point_sentences (middle_lines (script_lines (fst rS)))) [])
              (cta_line (script_lines (fst rS)))) as [chunks Hdoc].
  fold segments in Hdoc.
  exists (mkScripts (Some (fst rL)) (Some (fst rF)) (Some (fst rS))),
    segments, chunks, (snd rS).
  split; [exact Hgen|].
  split; [now exists (fst rL), (fst rF), (fst rS)|].
  split; [now eexists _, _, _, _, _|].
  unfold process_topic.
  unfold bindM at 1. unfold call at 1. rewrite Hmk.
  unfold bindM at 1. rewrite Hfetch.
  unfold bindM at 1. rewrite Hgen.
  unfold bindM at 1. unfold lift at 1. cbn [short as_str bind].
  rewrite Hseg.
  unfold bindM at 1. unfold lift at 1. rewrite Hdoc.
  reflexivity.
Qed.

Lemma main_missing_topics cmd w :
  opt_topics cmd = None ->
  main P cmd w = (Raise (SystemExit 2), argparse_usage P w).
Proof.
  intros H. unfold main, parse_args, bindM. now rewrite H.
Qed.

Lemma main_blank_topics cmd t w :
  opt_topics cmd = Some t ->
  stripped_nonempty (split COMMA t) = [] ->
  main P cmd w = (Ret tt, print P [u "Done."] w).
Proof.
  intros H E. unfold main, parse_args. rewrite H.
  unfold bindM at 1. unfold ret at 1. cbn [topics]. rewrite E.
  reflexivity.
Qed.

End PipelineFacts.

(** * The claims of the specification *)

Lemma nth_firstn_lt (A : Type) (l : list A) (d : A) :
  forall n i, i < n -> nth i (firstn n l) d = nth i l d.
Proof.
  induction l as [|a l IH]; intros [|n] [|i] H; cbn; try lia; try reflexivity.
  apply IH. lia.
Qed.

(** C1: for every input text the segmenter returns, without raising,
    exactly five segments with the roles hook, point1, point2, point3, cta
    in this order, the durations 8, 15, 15, 15, 7, the starts 0, 8, 23, 38,
    53 and the ends 8, 23, 38, 53, 60, whatever the text is. *)
Theorem segmenter_fixed_schedule (script_text lang : str) :
  exists segs,
    split_script_to_segments script_text lang = Ret segs
    /\ length segs = 5
    /\ map role segs
       = [u "hook"; u "point1"; u "point2"; u "point3"; u "cta"]
    /\ map duration segs = [8; 15; 15; 15; 7]%Z
    /\ map start segs = map Some [0; 8; 23; 38; 53]%Z
    /\ map end_ segs = map Some [8; 23; 38; 53; 60]%Z.
Proof.
  eexists. split; [apply split_script_to_segments_eq|].
  repeat split.
Qed.

(** C2, as stated, fails: with the OpenAI package installed, a credential
    set and a service that answers with blanks, every script of the set is
    the empty string. *)
Lemma generation_blank_answer_counterexample :
  fst (generate_three_scripts Sim.blank_service (u "Napoleon") [] (u "en") [])
  = Ret (mkScripts (Some []) (Some []) (Some [])).
Proof. vm_compute. reflexivity. Qed.

(** C2, amended: for every topic, summary and language, in every world,
    the generation strategy returns without raising a script set whose
    three entries are strings; an entry is non-empty unless the external
    attempt for its variant answered with blanks only. *)
Theorem generation_never_raises
        (World : Type) (P : Platform World) (topic summary lang : str)
        (w : World) :
  exists scripts w',
    generate_three_scripts P topic summary lang w = (Ret scripts, w')
    /\ forall v : Variant,
        exists t,
          entry v scripts = Some t
          /\ (t <> []
              \/ attempt_blank P (variant_prompt v topic summary lang)
                   (world_before P v topic summary lang w)).
Proof.
  eexists _, _. split; [apply generate_three_scripts_eq|].
  intros [ | | ]; cbn [entry long from_summary short variant_prompt world_before];
    eexists; (split; [reflexivity|]);
    rewrite ?variant_result_world.
  - apply variant_result_nonempty, long_layout_truthy.
  - apply variant_result_nonempty, fromsummary_layout_truthy.
  - apply variant_result_nonempty, short_layout_truthy.
Qed.

(** C3: whenever the OpenAI package is missing, or the credential is
    missing or empty, or the external attempt for a variant fails, the
    script set holds for that variant exactly what the variant's fallback
    formatter returns on the same topic, summary and language, whatever
    happens to the other variants. *)
Theorem fallback_on_external_failure
        (World : Type) (P : Platform World) (v : Variant)
        (topic summary lang : str) (w : World) :
  OPENAI_AVAILABLE P = false
  \/ falsy (os_getenv P (u "OPENAI_API_KEY")) = true
  \/ attempt_fails P (variant_prompt v topic summary lang)
       (world_before P v topic summary lang w) ->
  exists scripts w' t,
    generate_three_scripts P topic summary lang w = (Ret scripts, w')
    /\ fallback v topic summary lang = Ret t
    /\ entry v scripts = Some t.
Proof.
  intros H.
  assert (Hf : attempt_fails P (variant_prompt v topic summary lang)
                 (world_before P v topic summary lang w)).
  { destruct H as [H|[H|H]]; [| |exact H];
      apply disabled_attempt_fails; unfold external_enabled; rewrite H;
      [reflexivity | apply andb_false_r]. }
  clear H. rewrite generate_three_scripts_eq.
  destruct v; cbn [variant_prompt world_before fallback entry] in *;
    eexists _, _, _; (split; [reflexivity|]);
    cbn [long from_summary short].
  - split; [apply long_formatter_eq|].
    f_equal. now apply variant_result_fails.
  - split; [apply fromsummary_formatter_eq|].
    f_equal. apply variant_result_fails. now rewrite variant_result_world.
  - split; [apply short_formatter_eq|].
    f_equal. apply variant_result_fails. now rewrite !variant_result_world.
Qed.

(** C3, at a concrete input: no package and no credential. *)
Lemma fallback_on_external_failure_witness :
  exists scripts w' t,
    generate_three_scripts Sim.offline (u "Napoleon") (u "A. B.") (u "en") []
    = (Ret scripts, w')
    /\ fallback Short (u "Napoleon") (u "A. B.") (u "en") = Ret t
    /\ entry Short scripts = Some t.
Proof.
  apply (@fallback_on_external_failure _ Sim.offline Short).
  left. reflexivity.
Defined.

(** C4, as stated, fails: on the summary "A. B. C. D. E. F. G." the middle
    sentences are joined by single spaces, so the text "B. C. D. E. F" does
    not occur in the result, which differs from the layout with
    period-space joining. *)
Lemma long_fallback_middle_counterexample :
  exists out,
    local_fallback_formatter_long (u "T") (u "A. B. C. D. E. F. G.") (u "vi")
    = Ret out
    /\ contains out (u "B. C. D. E. F") = false
    /\ out <> long_layout (u ". ") (u "T") (u "A. B. C. D. E. F. G.") (u "vi").
Proof.
  eexists. split; [vm_compute; reflexivity|].
  split; [vm_compute; reflexivity|].
  vm_compute. discriminate.
Qed.

(** C4, amended: the long fallback returns
    "{intro}. {middle}. {closing}. {closing sentence of the language}",
    where intro is the first sentence of the summary (or the fixed sentence
    about the topic when there is none), middle is sentences 1 to 5 joined
    by single spaces, and closing is sentence 6 or the empty string; on
    "A. B. C. D. E. F. G." the middle is "B C D E F". *)
Theorem long_fallback_layout (topic summary lang : str) :
  local_fallback_formatter_long topic summary lang
  = Ret (long_layout (u " ") topic summary lang)
  /\ local_fallback_formatter_long topic (u "A. B. C. D. E. F. G.") (u "vi")
     = Ret (u "A. B C D E F. G. Nếu bạn muốn tìm hiểu sâu hơn, hãy theo dõi kênh để xem các video tiếp theo.").
Proof.
  split; [apply long_formatter_eq|].
  vm_compute. reflexivity.
Qed.

(** C5, as stated, fails: for the two lines "Hook" and
    "Like and subscribe." the second line is the CTA and also yields the
    first point, so point1 is not empty. *)
Lemma two_line_script_counterexample :
  script_lines (u "Hook" ++ [LF] ++ u "Like and subscribe.")
  = [u "Hook"; u "Like and subscribe."]
  /\ exists segs,
      split_script_to_segments (u "Hook" ++ [LF] ++ u "Like and subscribe.")
        (u "en") = Ret segs
      /\ map text segs
         = [u "Hook"; u "Like and subscribe"; []; []; u "Like and subscribe."]
      /\ map text segs <> [u "Hook"; []; []; []; u "Like and subscribe."].
Proof.
  split; [vm_compute; reflexivity|].
  eexists. split; [vm_compute; reflexivity|].
  split; [vm_compute; reflexivity|].
  vm_compute. discriminate.
Qed.

(** C5, amended: for an input with exactly two non-empty lines, the first
    is the hook, the second is the CTA and is also the only middle line:
    the three points are its first three sentences, empty where it has
    fewer, and the timing is the fixed one. *)
Theorem two_line_script_segments (script_text lang h c : str) :
  script_lines script_text = [h; c] ->
  let sents := stripped_nonempty (split DOT c) in
  split_script_to_segments script_text lang
  = Ret (timed_layout h (nth 0 sents []) (nth 1 sents []) (nth 2 sents []) c).
Proof.
  intros H sents. rewrite split_script_to_segments_eq, H.
  unfold middle_lines, point_sentences, cta_line.
  cbn [length Nat.ltb Nat.leb skipn flat_map hd last].
  rewrite app_nil_r. fold sents.
  now rewrite !nth_firstn_lt by lia.
Qed.

(** C5, at a concrete input. *)
Lemma two_line_script_segments_witness :
  split_script_to_segments (u "Hook" ++ [LF] ++ u "Like and subscribe.")
    (u "en")
  = Ret (timed_layout (u "Hook")
           (nth 0 (stripped_nonempty (split DOT (u "Like and subscribe."))) [])
           (nth 1 (stripped_nonempty (split DOT (u "Like and subscribe."))) [])
           (nth 2 (stripped_nonempty (split DOT (u "Like and subscribe."))) [])
           (u "Like and subscribe.")).
Proof.
  apply (@two_line_script_segments
           (u "Hook" ++ [LF] ++ u "Like and subscribe.") (u "en")
           (u "Hook") (u "Like and subscribe.")).
  vm_compute. reflexivity.
Defined.

(** C6, as stated, fails: the sentences are joined by single spaces, not
    by period-space. *)
Lemma fromsummary_join_counterexample :
  local_fallback_formatter_fromsummary (u "A. B.") (u "vi")
  = Ret (u "A B Nguồn: Wikipedia.")
  /\ local_fallback_formatter_fromsummary (u "A. B.") (u "vi")
     <> Ret (fromsummary_layout (u ". ") (u "A. B.") (u "vi")).
Proof.
  split; [vm_compute; reflexivity|].
  vm_compute. discriminate.
Qed.

(** C6, amended: the from-summary fallback returns the first six sentences
    of the summary joined by single spaces, followed by the attribution
    suffix of the language; the result ends with that suffix, and of eight
    sentences only the first six are used. *)
Theorem fromsummary_fallback_layout (summary lang : str) :
  local_fallback_formatter_fromsummary summary lang
  = Ret (fromsummary_layout (u " ") summary lang)
  /\ endswith (fromsummary_layout (u " ") summary lang) (attribution lang)
     = true
  /\ local_fallback_formatter_fromsummary
       (u "S1. S2. S3. S4. S5. S6. S7. S8.") (u "en")
     = Ret (u "S1 S2 S3 S4 S5 S6 Sources: Wikipedia.").
Proof.
  split; [apply fromsummary_formatter_eq|].
  split; [apply endswith_app|].
  vm_compute. reflexivity.
Qed.

(** C7: when the summary fetch fails, with whatever message, and the
    output directory could be made, the summary becomes the placeholder
    that embeds the message, it is not empty, the three scripts are
    generated from it, the segmenter yields its five timed segments, and
    processing reaches its two writes with the complete record; when both
    writes succeed the topic ends normally with the two file names. *)
Theorem summary_unavailable_still_completes
        (World : Type) (P : Platform World)
        (topic lang out_folder : str) (use_ai : bool)
        (w w1 w2 : World) (msg : str) :
  os_makedirs P out_folder w = (Returned tt, w1) ->
  fetch_wikipedia_summary P topic lang 6 w1 = (Raise (Exception msg), w2) ->
  exists scripts segments chunks w3,
    let summary := summary_placeholder msg in
    let meta := mkMeta topic lang summary scripts segments in
    summary = u "[Không lấy được Wikipedia. Lý do: " ++ msg ++ u "]"
    /\ summary <> []
    /\ contains summary msg = true
    /\ generate_three_scripts P topic summary lang w2 = (Ret scripts, w3)
    /\ populated scripts
    /\ length segments = 5
    /\ map duration segments = [8; 15; 15; 15; 7]%Z
    /\ process_topic P topic lang out_folder use_ai w
       = save_outputs P out_folder chunks meta w3
    /\ forall w4 w5,
        write_text P (txt_path P out_folder topic) chunks w3
        = (Returned tt, w4) ->
        json_dump P (json_path P out_folder topic) meta w4
        = (Returned tt, w5) ->
        process_topic P topic lang out_folder use_ai w
        = (Ret (txt_path P out_folder topic, json_path P out_folder topic),
           w5).
Proof.
  intros Hmk Hfetch.
  destruct (@process_topic_reaches_writes _ P topic lang out_folder use_ai
              w w1 w2 (summary_placeholder msg) [] Hmk)
    as (scripts & segments & chunks & w3 & Hgen & Hpop & Hseg & Hrun).
  { unfold try_except. now rewrite Hfetch. }
  exists scripts, segments, chunks, w3. cbv zeta.
  destruct Hseg as (h & a & b & c & t & ->).
  split; [reflexivity|].
  split.
  { apply truthy_nonempty. unfold summary_placeholder.
    apply truthy_app_l. reflexivity. }
  split; [apply contains_app|].
  split; [exact Hgen|].
  split; [exact Hpop|].
  split; [reflexivity|].
  split; [reflexivity|].
  split; [exact Hrun|].
  intros w4 w5 Htxt Hjson. rewrite Hrun.
  unfold save_outputs, bindM, call, ret. cbn [meta_topic].
  now rewrite Htxt, Hjson.
Qed.

(** C7, at a concrete input: the Wikipedia package is not installed. *)
Lemma summary_unavailable_still_completes_witness :
  exists scripts segments chunks w3,
    let summary :=
      summary_placeholder
        (u "Package wikipedia không có. Cài: pip install wikipedia") in
    let meta := mkMeta (u "Napoleon") (u "en") summary scripts segments in
    summary
    = u "[Không lấy được Wikipedia. Lý do: "
      ++ u "Package wikipedia không có. Cài: pip install wikipedia" ++ u "]"
    /\ summary <> []
    /\ contains summary
         (u "Package wikipedia không có. Cài: pip install wikipedia") = true
    /\ generate_three_scripts Sim.offline (u "Napoleon") summary (u "en")
         [Sim.EvMakedirs (u "./outputs")] = (Ret scripts, w3)
    /\ populated scripts
    /\ length segments = 5
    /\ map duration segments = [8; 15; 15; 15; 7]%Z
    /\ process_topic Sim.offline (u "Napoleon") (u "en") (u "./outputs") true []
       = save_outputs Sim.offline (u "./outputs") chunks meta w3
    /\ forall w4 w5,
        write_text Sim.offline
          (txt_path Sim.offline (u "./outputs") (u "Napoleon")) chunks w3
        = (Returned tt, w4) ->
        json_dump Sim.offline
          (json_path Sim.offline (u "./outputs") (u "Napoleon")) meta w4
        = (Returned tt, w5) ->
        process_topic Sim.offline (u "Napoleon") (u "en") (u "./outputs") true []
        = (Ret (txt_path Sim.offline (u "./outputs") (u "Napoleon"),
                json_path Sim.offline (u "./outputs") (u "Napoleon")),
           w5).
Proof.
  apply (@summary_unavailable_still_completes _ Sim.offline
           (u "Napoleon") (u "en") (u "./outputs") true
           [] [Sim.EvMakedirs (u "./outputs")]
           [Sim.EvMakedirs (u "./outputs")]
           (u "Package wikipedia không có. Cài: pip install wikipedia"));
    reflexivity.
Defined.

(** C8: the toggle that should disable external generation has no effect:
    processing a topic gives the same result, scripts and segments
    included, for both values of the flag, and the whole run is the same
    whether [--no_ai] is given or not. *)
Theorem toggle_does_not_gate_generation
        (World : Type) (P : Platform World) :
  (forall topic lang out_folder (b1 b2 : bool) (w : World),
      process_topic P topic lang out_folder b1 w
      = process_topic P topic lang out_folder b2 w)
  /\ (forall (t l o : option str) (b1 b2 : bool) (w : World),
         main P (mkCommandLine t l o b1) w = main P (mkCommandLine t l o b2) w).
Proof.
  split; [reflexivity|].
  intros [t|] l o b1 b2 w; reflexivity.
Qed.

(** C9, as stated, fails: with a topic list that holds only blanks and
    commas the run ends normally; it prints "Done." and nothing else, with
    no usage error. *)
Lemma blank_topic_list_counterexample :
  no_topics (mkCommandLine (Some (u " , ,")) None None false) = true
  /\ main Sim.offline (mkCommandLine (Some (u " , ,")) None None false) []
     = (Ret tt, [Sim.EvPrint [u "Done."]]).
Proof. split; vm_compute; reflexivity. Qed.

(** C9, amended: when the topic option is missing, the run fails with the
    usage error (exit status 2) of the argument parser before any topic is
    processed; when the option is given but no topic is left after trimming
    and dropping blank entries, no topic is processed and the run only
    prints "Done.". *)
Theorem no_topics_no_processing
        (World : Type) (P : Platform World) (cmd : CommandLine) (w : World) :
  no_topics cmd = true ->
  main P cmd w
  = match opt_topics cmd with
    | None => (Raise (SystemExit 2), argparse_usage P w)
    | Some _ => (Ret tt, print P [u "Done."] w)
    end.
Proof.
  unfold no_topics. destruct (opt_topics cmd) as [t|] eqn:Ht.
  - destruct (stripped_nonempty (split COMMA t)) eqn:E; [|discriminate].
    intros _. now apply main_blank_topics with (t := t).
  - intros _. now apply main_missing_topics.
Qed.

(** C9, at a concrete input: the option is missing. *)
Lemma no_topics_no_processing_witness :
  main Sim.offline (mkCommandLine None (Some (u "en")) None false) []
  = (Raise (SystemExit 2), [Sim.EvUsage]).
Proof.
  apply (@no_topics_no_processing _ Sim.offline
           (mkCommandLine None (Some (u "en")) None false) []).
  reflexivity.
Defined.

(** C10: each of the three fallback formatters gives the same result on a
    summary and on that summary with its newlines replaced by spaces. *)
Theorem fallbacks_ignore_newlines (topic summary lang : str) :
  local_fallback_formatter_long topic (replace LF SPACE summary) lang
  = local_fallback_formatter_long topic summary lang
  /\ local_fallback_formatter_fromsummary (replace LF SPACE summary) lang
     = local_fallback_formatter_fromsummary summary lang
  /\ local_fallback_formatter_short topic (replace LF SPACE summary) lang
     = local_fallback_formatter_short topic summary lang.
Proof.
  unfold local_fallback_formatter_long, local_fallback_formatter_fromsummary,
    local_fallback_formatter_short.
  rewrite !replace_newlines_idempotent. repeat split.
Qed.

(** * Further properties of the code *)

(** ** Trimming and splitting *)

Section TrimFacts.

Implicit Types (s t : str) (c : char).

Lemma lstrip_incl s c : In c (lstrip s) -> In c s.
Proof.
  induction s as [|a s IH]; cbn; [trivial|].
  destruct (isspace a); cbn; tauto.
Qed.

Lemma strip_incl s c : In c (strip s) -> In c s.
Proof.
  unfold strip, rstrip. intros H.
  apply (proj2 (in_rev _ _)) in H. apply lstrip_incl in H.
  apply (proj2 (in_rev _ _)) in H. now apply lstrip_incl.
Qed.

Lemma lstrip_idempotent s : lstrip (lstrip s) = lstrip s.
Proof.
  induction s as [|a s IH]; [reflexivity|].
  cbn. destruct (isspace a) eqn:E; [exact IH|].
  cbn. now rewrite E.
Qed.

(** A text that starts with a non-blank is its own left trim. *)
Lemma lstrip_head c s : isspace c = false -> lstrip (c :: s) = c :: s.
Proof. intros E. cbn. now rewrite E. Qed.

Lemma lstrip_fixed_cases s :
  lstrip s = s -> s = [] \/ exists c r, s = c :: r /\ isspace c = false.
Proof.
  destruct s as [|c r]; [now left|]. intros H. right. exists c, r.
  split; [reflexivity|].
  destruct (isspace c) eqn:E; [|reflexivity].
  cbn in H. rewrite E in H.
  assert (L : forall x, length (lstrip x) <= length x).
  { clear. induction x as [|a x IH]; cbn; [lia|].
    destruct (isspace a); cbn; lia. }
  specialize (L r). rewrite H in L. cbn in L. lia.
Qed.

Lemma lstrip_snoc s c :
  isspace c = false -> lstrip (s ++ [c]) = lstrip s ++ [c].
Proof.
  intros E. induction s as [|a s IH]; cbn; [now rewrite E|].
  destruct (isspace a); [exact IH | reflexivity].
Qed.

(** Trimming the right end keeps a non-blank first character in place. *)
Lemma lstrip_rstrip s : lstrip s = s -> lstrip (rstrip s) = rstrip s.
Proof.
  intros H. destruct (lstrip_fixed_cases H) as [->|(c & r & -> & E)];
    [reflexivity|].
  unfold rstrip. cbn [rev]. rewrite lstrip_snoc by assumption.
  rewrite rev_app_distr. cbn [rev app]. now apply lstrip_head.
Qed.

(** [strip] leaves nothing to trim. *)
Lemma strip_idempotent s : strip (strip s) = strip s.
Proof.
  assert (H : lstrip (strip s) = strip s)
    by (unfold strip; apply lstrip_rstrip, lstrip_idempotent).
  unfold strip at 1. rewrite H. unfold strip, rstrip.
  rewrite rev_involutive, lstrip_idempotent. reflexivity.
Qed.

(** A text between two non-blank characters is already trimmed. *)
Lemma strip_between c s d :
  isspace c = false -> isspace d = false ->
  strip (c :: s ++ [d]) = c :: s ++ [d].
Proof.
  intros Ec Ed. unfold strip, rstrip. rewrite lstrip_head by assumption.
  change (c :: s ++ [d]) with ((c :: s) ++ [d]).
  rewrite rev_app_distr. cbn [rev app]. rewrite lstrip_head by assumption.
  cbn [rev]. rewrite rev_app_distr, rev_involutive. reflexivity.
Qed.

(** A text of blanks only trims to nothing. *)
Lemma lstrip_blank s : forallb isspace s = true -> lstrip s = [].
Proof.
  induction s as [|a s IH]; cbn; [trivial|].
  intros H. apply andb_prop in H as [Ha Hs]. rewrite Ha. auto.
Qed.

Lemma strip_blank s : forallb isspace s = true -> strip s = [].
Proof. intros H. unfold strip. now rewrite lstrip_blank. Qed.

(** No piece of a split contains the separator, and every character of a
    piece comes from the text. *)
Lemma split_pieces sep s :
  Forall (fun p => ~ In sep p /\ forall c, In c p -> In c s) (split sep s).
Proof.
  induction s as [|a s IH]; cbn [split].
  - constructor; [|constructor]. split; [easy | trivial].
  - destruct (a =? sep)%N eqn:E.
    + constructor.
      * split; [easy | intros c []].
      * eapply Forall_impl; [|exact IH]. cbn. intros p [H1 H2].
        split; [assumption | intros c Hc; right; auto].
    + apply N.eqb_neq in E.
      destruct (split sep s) as [|w ws]; [constructor; [|constructor]|].
      * split; cbn; [intros [H|[]]; congruence | intros c [H|[]]; auto].
      * inversion IH as [|? ? [Hw1 Hw2] Hws]; subst. constructor.
        -- split; cbn; [intros [H|H]; [congruence | tauto]|].
           intros c [H|H]; [now left | right; auto].
        -- eapply Forall_impl; [|exact Hws]. cbn. intros p [H1 H2].
           split; [assumption | intros c Hc; right; auto].
Qed.

(** What the comprehension [[x.strip() for x in s.split(sep) if x.strip()]]
    keeps: non-empty, trimmed pieces without the separator, made of
    characters of the text. *)
Lemma stripped_nonempty_split sep s :
  Forall (fun t => t <> [] /\ strip t = t /\ ~ In sep t
                   /\ forall c, In c t -> In c s)
    (stripped_nonempty (split sep s)).
Proof.
  unfold stripped_nonempty. apply Forall_forall. intros t Ht.
  apply in_map_iff in Ht as (p & <- & Hp).
  apply filter_In in Hp as [Hp Hne].
  pose proof (split_pieces sep s) as Hall.
  rewrite Forall_forall in Hall. destruct (Hall p Hp) as [H1 H2].
  split; [now apply truthy_nonempty|].
  split; [apply strip_idempotent|].
  split; [intros Hc; apply H1; now apply strip_incl|].
  intros c Hc. apply H2. now apply strip_incl.
Qed.

(** A text without the separator is the only piece of its split. *)
Lemma split_without sep s : ~ In sep s -> split sep s = [s].
Proof.
  induction s as [|a s IH]; cbn; [trivial|]. intros H.
  destruct (a =? sep)%N eqn:E; [apply N.eqb_eq in E; tauto|].
  rewrite IH by tauto. reflexivity.
Qed.

(** Splitting after a first piece that has no separator. *)
Lemma split_app sep s t :
  ~ In sep s -> split sep (s ++ sep :: t) = s :: split sep t.
Proof.
  induction s as [|a s IH]; intros H; cbn [app split].
  - now rewrite N.eqb_refl.
  - destruct (a =? sep)%N eqn:E; [apply N.eqb_eq in E; cbn in H; tauto|].
    rewrite IH by (cbn in H; tauto). reflexivity.
Qed.

End TrimFacts.

(** ** The segmenter on its edge cases *)

Section SegmenterEdges.

Implicit Types (parts middle : list str) (s t : str).

Lemma filter_nothing (A : Type) (f : A -> bool) (l : list A) :
  (forall x, In x l -> f x = false) -> filter f l = [].
Proof.
  induction l as [|a l IH]; cbn; [trivial|]. intros H.
  rewrite (H a) by now left. apply IH. intros x Hx. apply H. now right.
Qed.

(** A text of blanks and separators has no piece to keep. *)
Lemma stripped_nonempty_blank sep s :
  forallb (fun c => isspace c || (c =? sep)%N) s = true ->
  stripped_nonempty (split sep s) = [].
Proof.
  intros H. unfold stripped_nonempty. rewrite filter_nothing; [reflexivity|].
  intros p Hp. pose proof (split_pieces sep s) as Hall.
  rewrite Forall_forall in Hall. destruct (Hall p Hp) as [H1 H2].
  rewrite strip_blank; [reflexivity|].
  apply forallb_forall. intros c Hc.
  rewrite forallb_forall in H. specialize (H c (H2 c Hc)).
  apply orb_prop in H as [H|H]; [assumption|].
  apply N.eqb_eq in H. subst c. contradiction.
Qed.

Lemma last_in_or_default (A : Type) (l : list A) (d : A) :
  In (last l d) l \/ last l d = d.
Proof.
  induction l as [|a l IH]; [now right|].
  destruct l as [|b l]; [left; now left|].
  change (last (a :: b :: l) d) with (last (b :: l) d).
  destruct IH as [H|H]; [left; now right | now right].
Qed.

Lemma firstn_incl (A : Type) (n : nat) (l : list A) (x : A) :
  In x (firstn n l) -> In x l.
Proof.
  intros H. rewrite <- (firstn_skipn n l). apply in_or_app. now left.
Qed.

Lemma skipn_incl (A : Type) (n : nat) (l : list A) (x : A) :
  In x (skipn n l) -> In x l.
Proof.
  intros H. rewrite <- (firstn_skipn n l). apply in_or_app. now right.
Qed.

Lemma middle_lines_incl parts p : In p (middle_lines parts) -> In p parts.
Proof.
  unfold middle_lines. destruct (2 <? length parts); intros H.
  - eapply skipn_incl, firstn_incl, H.
  - eapply skipn_incl, H.
Qed.

Lemma clean_empty : clean [].
Proof. split; [reflexivity | easy]. Qed.

End SegmenterEdges.

(** X1: a script of blanks only (spaces, tabs, newlines, ...) has no line:
    the segmenter returns the fixed layout with five empty texts. *)
Theorem segmenter_blank_script (script_text lang : str) :
  forallb isspace script_text = true ->
  split_script_to_segments script_text lang
  = Ret (timed_layout [] [] [] [] []).
Proof.
  intros H. rewrite split_script_to_segments_eq.
  assert (E : script_lines script_text = []).
  { apply stripped_nonempty_blank. rewrite forallb_forall in *.
    intros c Hc. now rewrite (H c Hc). }
  rewrite E. reflexivity.
Qed.

Lemma segmenter_blank_script_witness :
  split_script_to_segments ([SPACE; LF; 9%N; LF; LF; SPACE]) (u "en")
  = Ret (timed_layout [] [] [] [] []).
Proof.
  apply (@segmenter_blank_script [SPACE; LF; 9%N; LF; LF; SPACE] (u "en")).
  reflexivity.
Defined.

(** X2: a script with a single non-empty line has that line, trimmed, as
    its hook; the points and the CTA are empty. *)
Theorem segmenter_single_line (script_text lang h : str) :
  script_lines script_text = [h] ->
  split_script_to_segments script_text lang
  = Ret (timed_layout h [] [] [] []).
Proof.
  intros H. rewrite split_script_to_segments_eq, H. reflexivity.
Qed.

Lemma segmenter_single_line_witness :
  split_script_to_segments ([LF] ++ u "  Only this.  " ++ [LF]) (u "en")
  = Ret (timed_layout (u "Only this.") [] [] [] []).
Proof.
  apply (@segmenter_single_line ([LF] ++ u "  Only this.  " ++ [LF]) (u "en")
           (u "Only this.")).
  vm_compute. reflexivity.
Defined.

Lemma many_lines_eq (script_text lang h c : str) (mid : list str) :
  mid <> [] ->
  script_lines script_text = h :: mid ++ [c] ->
  let sents := middle_sentences mid in
  split_script_to_segments script_text lang
  = Ret (timed_layout h (nth 0 sents []) (nth 1 sents []) (nth 2 sents []) c).
Proof.
  intros Hmid H sents. rewrite split_script_to_segments_eq, H.
  assert (Hlen : length (h :: mid ++ [c]) = length mid + 2)
    by (cbn [length]; rewrite length_app; cbn [length]; lia).
  assert (Hpos : 0 < length mid) by (destruct mid; [congruence | cbn; lia]).
  unfold middle_lines, cta_line. rewrite Hlen.
  replace (2 <? length mid + 2) with true by (symmetry; apply Nat.ltb_lt; lia).
  replace (1 <? length mid + 2) with true by (symmetry; apply Nat.ltb_lt; lia).
  replace (length mid + 2 - 2) with (length mid) by lia.
  cbn [skipn hd]. rewrite firstn_app, Nat.sub_diag, firstn_all.
  cbn [firstn]. rewrite app_nil_r.
  change (h :: mid ++ [c]) with ((h :: mid) ++ [c]). rewrite last_last.
  unfold point_sentences. fold (middle_sentences mid). fold sents.
  now rewrite !nth_firstn_lt by lia.
Qed.

(** X3: with three or more non-empty lines the first is the hook, the last
    is the CTA, and the points are the first three sentences of the lines
    strictly between them, in order; sentences beyond the third are
    dropped and missing ones are empty. *)
Theorem segmenter_many_lines (script_text lang h c : str) (mid : list str) :
  mid <> [] ->
  script_lines script_text = h :: mid ++ [c] ->
  let sents := middle_sentences mid in
  split_script_to_segments script_text lang
  = Ret (timed_layout h (nth 0 sents []) (nth 1 sents []) (nth 2 sents []) c).
Proof. apply many_lines_eq. Qed.

Lemma segmenter_many_lines_witness :
  split_script_to_segments
    (u "Hook?" ++ [LF] ++ u "One. Two." ++ [LF; LF] ++ u "Three. Four."
     ++ [LF] ++ u "Bye.") (u "en")
  = Ret (timed_layout (u "Hook?")
           (nth 0 (middle_sentences [u "One. Two."; u "Three. Four."]) [])
           (nth 1 (middle_sentences [u "One. Two."; u "Three. Four."]) [])
           (nth 2 (middle_sentences [u "One. Two."; u "Three. Four."]) [])
           (u "Bye.")).
Proof.
  apply (@segmenter_many_lines
           (u "Hook?" ++ [LF] ++ u "One. Two." ++ [LF; LF] ++ u "Three. Four."
            ++ [LF] ++ u "Bye.") (u "en") (u "Hook?") (u "Bye.")
           [u "One. Two."; u "Three. Four."]).
  - discriminate.
  - vm_compute. reflexivity.
Defined.

(** X4: every text the segmenter puts in a slot is trimmed and holds no
    newline, and no point text holds a period. *)
Theorem segmenter_texts_clean (script_text lang : str) :
  exists h p1 p2 p3 c,
    split_script_to_segments script_text lang
    = Ret (timed_layout h p1 p2 p3 c)
    /\ Forall clean [h; p1; p2; p3; c]
    /\ Forall (fun p => ~ In DOT p) [p1; p2; p3].
Proof.
  eexists _, _, _, _, _. split; [apply split_script_to_segments_eq|].
  set (parts := script_lines script_text).
  assert (Hparts : forall p, In p parts -> clean p).
  { intros p Hp. unfold parts, script_lines in Hp.
    pose proof (stripped_nonempty_split LF script_text) as Hall.
    rewrite Forall_forall in Hall.
    destruct (Hall p Hp) as (_ & H1 & H2 & _). now split. }
  set (pts := point_sentences (middle_lines parts)).
  assert (Hpts : forall p, In p pts -> clean p /\ ~ In DOT p).
  { intros p Hp. unfold pts, point_sentences in Hp.
    apply firstn_incl, in_flat_map in Hp as (line & Hline & Hp).
    apply middle_lines_incl, Hparts in Hline. destruct Hline as [_ Hlf].
    pose proof (stripped_nonempty_split DOT line) as Hall.
    rewrite Forall_forall in Hall.
    destruct (Hall p Hp) as (_ & H1 & H2 & H3).
    split; [split; [assumption | intros Hc; apply Hlf; auto] | assumption]. }
  assert (Hnth : forall i, clean (nth i pts []) /\ ~ In DOT (nth i pts [])).
  { intros i. destruct (nth_in_or_default i pts []) as [Hin | ->];
      [now apply Hpts | split; [apply clean_empty | easy]]. }
  assert (Hh : clean (hd [] parts)).
  { destruct parts as [|p r]; [apply clean_empty | apply Hparts; now left]. }
  assert (Hc : clean (cta_line parts)).
  { unfold cta_line. destruct (1 <? length parts); [|apply clean_empty].
    destruct (last_in_or_default parts []) as [Hin | ->];
      [now apply Hparts | apply clean_empty]. }
  split.
  - repeat (apply Forall_cons;
            [first [exact Hh | exact Hc | apply Hnth]|]).
    apply Forall_nil.
  - repeat (apply Forall_cons; [apply Hnth|]). apply Forall_nil.
Qed.

(** ** The fallback formatters on their edge cases *)

Lemma sentences_clean (summary : str) :
  Forall (fun t => t <> [] /\ strip t = t /\ ~ In DOT t /\ ~ In LF t)
    (stripped_nonempty (split DOT (replace LF SPACE summary))).
Proof.
  eapply Forall_impl; [|apply stripped_nonempty_split].
  cbn. intros t (H1 & H2 & H3 & H4). repeat split; try assumption.
  intros Hin. apply H4 in Hin. unfold replace in Hin.
  apply in_map_iff in Hin as (c & Hc & _).
  destruct (c =? LF)%N eqn:E; [discriminate|].
  apply N.eqb_neq in E. congruence.
Qed.

(** X5: the sentences the fallback formatters work on are non-empty and
    trimmed, and hold neither a period nor a newline. *)
Theorem sentences_are_clean (summary : str) :
  Forall (fun t => t <> [] /\ strip t = t /\ ~ In DOT t /\ ~ In LF t)
    (stripped_nonempty (split DOT (replace LF SPACE summary))).
Proof. apply sentences_clean. Qed.

Lemma sentences_blank (summary : str) :
  forallb blank_or_period summary = true -> sentences summary = [].
Proof.
  intros H. unfold sentences. apply stripped_nonempty_blank.
  apply forallb_forall. intros c Hc. unfold replace in Hc.
  apply in_map_iff in Hc as (c0 & <- & Hc0).
  rewrite forallb_forall in H. specialize (H c0 Hc0).
  destruct (c0 =? LF)%N; [reflexivity | exact H].
Qed.

Lemma long_empty_literal :
  u " là một chủ đề lịch sử thú vị." ++ u ". " ++ u ". " ++ u ". "
  = u " là một chủ đề lịch sử thú vị.. . . ".
Proof. vm_compute. reflexivity. Qed.

(** X6: on a summary without any sentence (empty, or blanks and periods
    only) the long fallback is the Vietnamese sentence about the topic, in
    every language, followed by ".. . . " and the closing sentence of the
    language; the from-summary fallback is the attribution suffix alone,
    with its leading space. *)
Theorem fallbacks_on_empty_summary (topic summary lang : str) :
  forallb blank_or_period summary = true ->
  local_fallback_formatter_long topic summary lang
  = Ret (topic ++ u " là một chủ đề lịch sử thú vị.. . . " ++ long_cta lang)
  /\ local_fallback_formatter_fromsummary summary lang
     = Ret (attribution lang).
Proof.
  intros H. apply sentences_blank in H.
  rewrite long_formatter_eq, fromsummary_formatter_eq.
  unfold long_layout, fromsummary_layout. rewrite H.
  cbn [long_intro firstn skipn join nth app]. split; [|reflexivity].
  f_equal. rewrite <- long_empty_literal, <- !app_assoc. reflexivity.
Qed.

Lemma fallbacks_on_empty_summary_witness :
  local_fallback_formatter_long (u "Rome") (u " . ." ++ [LF] ++ u ".") (u "en")
  = Ret (u "Rome" ++ u " là một chủ đề lịch sử thú vị.. . . "
         ++ long_cta (u "en"))
  /\ local_fallback_formatter_fromsummary (u " . ." ++ [LF] ++ u ".") (u "en")
     = Ret (attribution (u "en")).
Proof.
  apply (@fallbacks_on_empty_summary (u "Rome") (u " . ." ++ [LF] ++ u ".")
           (u "en")).
  reflexivity.
Defined.

Section PrefixFacts.

Variable topic : str.
Implicit Types (l : list str).

Lemma long_intro_prefix l : long_intro topic l = long_intro topic (firstn 7 l).
Proof. now destruct l. Qed.

Lemma middle_prefix l :
  firstn 5 (skipn 1 l) = firstn 5 (skipn 1 (firstn 7 l)).
Proof.
  destruct l as [|a r]; [reflexivity|].
  change (firstn 7 (a :: r)) with (a :: firstn 6 r). cbn [skipn].
  now rewrite firstn_firstn.
Qed.

Lemma first_point_prefix l :
  match l with s0 :: _ => s0 | [] => topic ++ u " có nhiều điều thú vị." end
  = match firstn 7 l with
    | s0 :: _ => s0
    | [] => topic ++ u " có nhiều điều thú vị."
    end.
Proof. now destruct l. Qed.

End PrefixFacts.

(** X7: the fallback formatters never read beyond the seventh sentence:
    two summaries with the same first seven sentences give the same three
    fallback texts. *)
Theorem fallbacks_read_seven_sentences (topic s1 s2 lang : str) :
  firstn 7 (sentences s1) = firstn 7 (sentences s2) ->
  local_fallback_formatter_long topic s1 lang
  = local_fallback_formatter_long topic s2 lang
  /\ local_fallback_formatter_fromsummary s1 lang
     = local_fallback_formatter_fromsummary s2 lang
  /\ local_fallback_formatter_short topic s1 lang
     = local_fallback_formatter_short topic s2 lang.
Proof.
  intros H.
  rewrite !long_formatter_eq, !fromsummary_formatter_eq, !short_formatter_eq.
  unfold long_layout, fromsummary_layout, short_layout.
  set (a := sentences s1) in *. set (b := sentences s2) in *.
  rewrite (long_intro_prefix topic a), (long_intro_prefix topic b).
  rewrite (middle_prefix a), (middle_prefix b).
  rewrite (first_point_prefix topic a), (first_point_prefix topic b).
  rewrite <- (nth_firstn_lt a [] (n := 7) (i := 6)) by lia.
  rewrite <- (nth_firstn_lt b [] (n := 7) (i := 6)) by lia.
  rewrite <- (nth_firstn_lt a [] (n := 7) (i := 1)) by lia.
  rewrite <- (nth_firstn_lt b [] (n := 7) (i := 1)) by lia.
  rewrite <- (nth_firstn_lt a [] (n := 7) (i := 2)) by lia.
  rewrite <- (nth_firstn_lt b [] (n := 7) (i := 2)) by lia.
  replace (firstn 6 a) with (firstn 6 (firstn 7 a))
    by (rewrite firstn_firstn; reflexivity).
  replace (firstn 6 b) with (firstn 6 (firstn 7 b))
    by (rewrite firstn_firstn; reflexivity).
  rewrite H. repeat split.
Qed.

Lemma fallbacks_read_seven_sentences_witness :
  local_fallback_formatter_long (u "T") (u "A. B. C. D. E. F. G. H. I.") (u "en")
  = local_fallback_formatter_long (u "T") (u "A.B.C.D.E.F.G.X") (u "en")
  /\ local_fallback_formatter_fromsummary (u "A. B. C. D. E. F. G. H. I.")
       (u "en")
     = local_fallback_formatter_fromsummary (u "A.B.C.D.E.F.G.X") (u "en")
  /\ local_fallback_formatter_short (u "T") (u "A. B. C. D. E. F. G. H. I.")
       (u "en")
     = local_fallback_formatter_short (u "T") (u "A.B.C.D.E.F.G.X") (u "en").
Proof.
  apply (@fallbacks_read_seven_sentences (u "T")
           (u "A. B. C. D. E. F. G. H. I.") (u "A.B.C.D.E.F.G.X") (u "en")).
  vm_compute. reflexivity.
Defined.

(** X8: the language matters only through whether it starts with "vi":
    two languages that agree on this give the same fallback texts and the
    same generation, prompts included. *)
Theorem language_matters_by_prefix
        (World : Type) (P : Platform World) (topic summary l1 l2 : str) :
  startswith l1 (u "vi") = startswith l2 (u "vi") ->
  local_fallback_formatter_long topic summary l1
  = local_fallback_formatter_long topic summary l2
  /\ local_fallback_formatter_fromsummary summary l1
     = local_fallback_formatter_fromsummary summary l2
  /\ local_fallback_formatter_short topic summary l1
     = local_fallback_formatter_short topic summary l2
  /\ forall w : World,
      generate_three_scripts P topic summary l1 w
      = generate_three_scripts P topic summary l2 w.
Proof.
  intros H.
  assert (HL : local_fallback_formatter_long topic summary l1
               = local_fallback_formatter_long topic summary l2)
    by (unfold local_fallback_formatter_long; now rewrite H).
  assert (HF : local_fallback_formatter_fromsummary summary l1
               = local_fallback_formatter_fromsummary summary l2)
    by (unfold local_fallback_formatter_fromsummary; now rewrite H).
  assert (HS : local_fallback_formatter_short topic summary l1
               = local_fallback_formatter_short topic summary l2)
    by (unfold local_fallback_formatter_short; now rewrite H).
  repeat split; try assumption.
  intros w. unfold generate_three_scripts. now rewrite H, HL, HF, HS.
Qed.

Lemma language_matters_by_prefix_witness :
  local_fallback_formatter_long (u "T") (u "A. B.") (u "vi-VN")
  = local_fallback_formatter_long (u "T") (u "A. B.") (u "vi")
  /\ local_fallback_formatter_fromsummary (u "A. B.") (u "vi-VN")
     = local_fallback_formatter_fromsummary (u "A. B.") (u "vi")
  /\ local_fallback_formatter_short (u "T") (u "A. B.") (u "vi-VN")
     = local_fallback_formatter_short (u "T") (u "A. B.") (u "vi")
  /\ forall w : Sim.Trace,
      generate_three_scripts Sim.offline (u "T") (u "A. B.") (u "vi-VN") w
      = generate_three_scripts Sim.offline (u "T") (u "A. B.") (u "vi") w.
Proof.
  apply (@language_matters_by_prefix _ Sim.offline (u "T") (u "A. B.")
           (u "vi-VN") (u "vi")).
  reflexivity.
Defined.

(** ** The external attempt *)

Lemma str_eqb_eq (a b : str) : str_eqb a b = true -> a = b.
Proof.
  revert b. induction a as [|x a IH]; intros [|y b]; cbn; try discriminate;
    [reflexivity|].
  intros H. apply andb_prop in H as [H1 H2]. apply N.eqb_eq in H1.
  f_equal; auto.
Qed.

Lemma str_eqb_refl (a : str) : str_eqb a a = true.
Proof. induction a as [|x a IH]; cbn; [reflexivity|]. now rewrite N.eqb_refl. Qed.

(** Formatting a quoting template puts the value between double quotes. *)
Lemma format_quoted (t : template) (field value : str) :
  quotes_field t field = true ->
  exists a b,
    format t [(field, value)] = Ret (a ++ ([QUOTE] ++ value ++ [QUOTE]) ++ b).
Proof.
  unfold quotes_field.
  destruct t as [|[a|] [|[|f] [|[b|] [|]]]]; try discriminate.
  intros H. apply andb_prop in H as [H Hb]. apply andb_prop in H as [Hf Ha].
  apply str_eqb_eq in Hf. subst f.
  destruct (rev a) as [|qa ra] eqn:Era; [discriminate|].
  apply N.eqb_eq in Ha. subst qa.
  destruct b as [|qb b']; [discriminate|]. apply N.eqb_eq in Hb. subst qb.
  assert (Ea : a = rev ra ++ [QUOTE]).
  { rewrite <- (rev_involutive a), Era. reflexivity. }
  exists (rev ra), b'. cbn [format dict_getitem]. rewrite str_eqb_refl.
  cbn [bind]. f_equal. rewrite Ea, app_nil_r, <- !app_assoc. reflexivity.
Qed.

Lemma prompt_text_quoted (catalog : list (str * template))
      (field lang value : str) :
  catalog_quotes catalog field ->
  render_prompt catalog field lang value
  = Ret (prompt_text catalog field lang value)
  /\ contains (prompt_text catalog field lang value)
       ([QUOTE] ++ value ++ [QUOTE]) = true.
Proof.
  intros (tv & te & Hv & He & Qv & Qe).
  unfold prompt_text, render_prompt.
  destruct (startswith lang (u "vi")); [rewrite Hv | rewrite He]; cbn [bind].
  - destruct (format_quoted tv field value Qv) as (a & b & ->).
    split; [reflexivity | apply contains_app].
  - destruct (format_quoted te field value Qe) as (a & b & ->).
    split; [reflexivity | apply contains_app].
Qed.

Lemma prompt_long_quotes : catalog_quotes PROMPT_LONG (u "TOPIC").
Proof. eexists _, _. repeat split; vm_compute; reflexivity. Qed.

Lemma prompt_from_summary_quotes :
  catalog_quotes PROMPT_FROM_SUMMARY (u "SUMMARY").
Proof. eexists _, _. repeat split; vm_compute; reflexivity. Qed.

Lemma prompt_short_quotes : catalog_quotes PROMPT_SHORT (u "TOPIC").
Proof. eexists _, _. repeat split; vm_compute; reflexivity. Qed.

(** X9: the prompt of each variant holds its value verbatim between double
    quotes: the topic for the long and the short variant, the summary for
    the from-summary variant; braces in the value are not interpreted. *)
Theorem prompt_quotes_value (v : Variant) (topic summary lang : str) :
  contains (variant_prompt v topic summary lang)
    ([QUOTE]
     ++ match v with FromSummary => summary | _ => topic end
     ++ [QUOTE]) = true.
Proof.
  destruct v; cbn [variant_prompt].
  - apply prompt_text_quoted, prompt_long_quotes.
  - apply prompt_text_quoted, prompt_from_summary_quotes.
  - apply prompt_text_quoted, prompt_short_quotes.
Qed.

Section AttemptFacts.

Context {World : Type} (P : Platform World).
Implicit Types (w : World) (prompt fb : str).

Lemma variant_result_disabled prompt fb w :
  external_enabled P = false -> variant_result P prompt fb w = (fb, w).
Proof.
  intros H. unfold variant_result.
  destruct (call_openai_disabled P prompt w H) as [msg ->]. reflexivity.
Qed.

Lemma call_openai_answer prompt w k c w' :
  OPENAI_AVAILABLE P = true ->
  os_getenv P (u "OPENAI_API_KEY") = Some k ->
  truthy k = true ->
  openai_chat_content P k MODEL prompt w = (Returned c, w') ->
  call_openai P prompt MODEL w = (Ret (strip c), w').
Proof.
  intros Ha Hk Ht Hc. unfold call_openai. rewrite Ha, Hk, Ht. cbn [negb].
  unfold bindM, call, ret. now rewrite Hc.
Qed.

Lemma disabled_cases :
  OPENAI_AVAILABLE P = false \/ falsy (os_getenv P (u "OPENAI_API_KEY")) = true ->
  external_enabled P = false.
Proof.
  unfold external_enabled. intros [H|H]; rewrite H;
    [reflexivity | apply andb_false_r].
Qed.

End AttemptFacts.

(** X10: [call_openai] returns only trimmed text: when it returns, the
    package is installed, the credential is set and non-empty, the service
    answered with a text, and the result is that text without leading and
    trailing blanks. *)
Theorem call_openai_returns_trimmed
        (World : Type) (P : Platform World) (prompt model r : str)
        (w w' : World) :
  call_openai P prompt model w = (Ret r, w') ->
  strip r = r
  /\ OPENAI_AVAILABLE P = true
  /\ exists k c,
      os_getenv P (u "OPENAI_API_KEY") = Some k
      /\ truthy k = true
      /\ openai_chat_content P k model prompt w = (Returned c, w')
      /\ r = strip c.
Proof.
  unfold call_openai, raise.
  destruct (OPENAI_AVAILABLE P); cbn [negb]; [|discriminate].
  destruct (os_getenv P (u "OPENAI_API_KEY")) as [k|]; [|discriminate].
  destruct (truthy k) eqn:Ht; [|discriminate].
  unfold bindM, call, ret.
  destruct (openai_chat_content P k model prompt w) as [[c|msg] w1] eqn:Hc;
    [|discriminate].
  intros H. injection H as <- <-.
  split; [apply strip_idempotent|]. split; [reflexivity|].
  now exists k, c.
Qed.

Lemma call_openai_returns_trimmed_witness :
  strip (u "Story. Told.") = u "Story. Told."
  /\ OPENAI_AVAILABLE Faults.online = true
  /\ exists k c,
      os_getenv Faults.online (u "OPENAI_API_KEY") = Some k
      /\ truthy k = true
      /\ openai_chat_content Faults.online k MODEL (u "Tell.") []
         = (Returned c, [Sim.EvChat (u "Tell.")])
      /\ u "Story. Told." = strip c.
Proof.
  apply (@call_openai_returns_trimmed _ Faults.online (u "Tell.") MODEL
           (u "Story. Told.") [] [Sim.EvChat (u "Tell.")]).
  vm_compute. reflexivity.
Defined.

(** X11: without the OpenAI package, or without a non-empty credential,
    generation makes no external call at all: the world is unchanged and
    the three scripts are the three fallback texts. *)
Theorem generation_offline_makes_no_call
        (World : Type) (P : Platform World) (topic summary lang : str)
        (w : World) :
  OPENAI_AVAILABLE P = false
  \/ falsy (os_getenv P (u "OPENAI_API_KEY")) = true ->
  exists l f s,
    local_fallback_formatter_long topic summary lang = Ret l
    /\ local_fallback_formatter_fromsummary summary lang = Ret f
    /\ local_fallback_formatter_short topic summary lang = Ret s
    /\ generate_three_scripts P topic summary lang w
       = (Ret (mkScripts (Some l) (Some f) (Some s)), w).
Proof.
  intros H. apply disabled_cases in H.
  eexists _, _, _.
  split; [apply long_formatter_eq|].
  split; [apply fromsummary_formatter_eq|].
  split; [apply short_formatter_eq|].
  rewrite generate_three_scripts_eq.
  now rewrite !(variant_result_disabled P _ _ _ H).
Qed.

Lemma generation_offline_makes_no_call_witness :
  exists l f s,
    local_fallback_formatter_long (u "Rome") (u "A. B.") (u "en") = Ret l
    /\ local_fallback_formatter_fromsummary (u "A. B.") (u "en") = Ret f
    /\ local_fallback_formatter_short (u "Rome") (u "A. B.") (u "en") = Ret s
    /\ generate_three_scripts Sim.offline (u "Rome") (u "A. B.") (u "en") []
       = (Ret (mkScripts (Some l) (Some f) (Some s)), []).
Proof.
  apply (@generation_offline_makes_no_call _ Sim.offline).
  left. reflexivity.
Defined.

(** X12: with the package installed and a non-empty credential, when the
    service answers the three prompts in turn, the three scripts are the
    trimmed answers, in the order long, from_summary, short; no fallback
    text is used, and each call carries the credential and the model
    "gpt-4o-mini". *)
Theorem generation_uses_trimmed_answers
        (World : Type) (P : Platform World) (topic summary lang : str)
        (k c1 c2 c3 : str) (w w1 w2 w3 : World) :
  OPENAI_AVAILABLE P = true ->
  os_getenv P (u "OPENAI_API_KEY") = Some k ->
  truthy k = true ->
  openai_chat_content P k (u "gpt-4o-mini")
    (variant_prompt Long topic summary lang) w = (Returned c1, w1) ->
  openai_chat_content P k (u "gpt-4o-mini")
    (variant_prompt FromSummary topic summary lang) w1 = (Returned c2, w2) ->
  openai_chat_content P k (u "gpt-4o-mini")
    (variant_prompt Short topic summary lang) w2 = (Returned c3, w3) ->
  generate_three_scripts P topic summary lang w
  = (Ret (mkScripts (Some (strip c1)) (Some (strip c2)) (Some (strip c3))), w3).
Proof.
  intros Ha Hk Ht H1 H2 H3. rewrite generate_three_scripts_eq.
  fold MODEL in H1, H2, H3. cbn [variant_prompt] in H1, H2, H3.
  unfold variant_result.
  rewrite (call_openai_answer P _ _ Ha Hk Ht H1). cbn [fst snd].
  rewrite (call_openai_answer P _ _ Ha Hk Ht H2). cbn [fst snd].
  rewrite (call_openai_answer P _ _ Ha Hk Ht H3). reflexivity.
Qed.

Lemma generation_uses_trimmed_answers_witness :
  generate_three_scripts Faults.online (u "Rome") (u "A. B.") (u "en") []
  = (Ret (mkScripts (Some (strip (u "  Story. Told.  ")))
            (Some (strip (u "  Story. Told.  ")))
            (Some (strip (u "  Story. Told.  ")))),
     [Sim.EvChat (variant_prompt Long (u "Rome") (u "A. B.") (u "en"));
      Sim.EvChat (variant_prompt FromSummary (u "Rome") (u "A. B.") (u "en"));
      Sim.EvChat (variant_prompt Short (u "Rome") (u "A. B.") (u "en"))]).
Proof.
  apply (@generation_uses_trimmed_answers _ Faults.online
           (u "Rome") (u "A. B.") (u "en") (u "sk-test")
           (u "  Story. Told.  ") (u "  Story. Told.  ") (u "  Story. Told.  ")
           []
           [Sim.EvChat (variant_prompt Long (u "Rome") (u "A. B.") (u "en"))]
           [Sim.EvChat (variant_prompt Long (u "Rome") (u "A. B.") (u "en"));
            Sim.EvChat
              (variant_prompt FromSummary (u "Rome") (u "A. B.") (u "en"))]);
    reflexivity.
Defined.

(** ** The per-topic pipeline and its failures *)

(** X13: the file-name stem of a topic has the length of the topic and
    holds neither a space nor a slash; the two output paths are the output
    folder joined with "script_{stem}.txt" and "script_{stem}.json". *)
Theorem safe_name_has_no_separator
        (World : Type) (P : Platform World) (out_folder topic : str) :
  length (safe_name topic) = length topic
  /\ ~ In SPACE (safe_name topic)
  /\ ~ In SLASH (safe_name topic)
  /\ txt_path P out_folder topic
     = os_path_join P out_folder (u "script_" ++ safe_name topic ++ u ".txt")
  /\ json_path P out_folder topic
     = os_path_join P out_folder (u "script_" ++ safe_name topic ++ u ".json").
Proof.
  unfold safe_name, replace. rewrite !length_map.
  split; [reflexivity|].
  split.
  { rewrite map_map. intros H. apply in_map_iff in H as (c & Hc & _).
    destruct (c =? SPACE)%N eqn:E1; cbn in Hc; [discriminate|].
    destruct (c =? SLASH)%N eqn:E2; [discriminate|].
    apply N.eqb_neq in E1. congruence. }
  split.
  { intros H. apply in_map_iff in H as (c & Hc & _).
    destruct (c =? SLASH)%N eqn:E; [discriminate|].
    apply N.eqb_neq in E. congruence. }
  split; reflexivity.
Qed.

Section FailureFacts.

Context {World : Type} (P : Platform World).
Implicit Types (w : World) (topic lang out_folder : str).

(** Reading Wikipedia returns or raises an [Exception]. *)
Lemma fetch_cases topic lang n w :
  (exists r w', fetch_wikipedia_summary P topic lang n w = (Ret r, w'))
  \/ (exists msg w',
         fetch_wikipedia_summary P topic lang n w
         = (Raise (Exception msg), w')).
Proof.
  unfold fetch_wikipedia_summary.
  destruct (WIKI_AVAILABLE P); cbn [negb];
    [|right; eexists _, _; reflexivity].
  unfold bindM, call, ret.
  destruct (wikipedia_set_lang P lang w) as [[[]|m] w1];
    [|right; eexists _, _; reflexivity].
  destruct (wikipedia_summary P topic n w1) as [[s|m] w2];
    [|right; eexists _, _; reflexivity].
  destruct (wikipedia_page_content P topic w2) as [[c|m] w3];
    [left | right]; eexists _, _; reflexivity.
Qed.

(** The summary step never raises. *)
Lemma summary_step_returns topic lang w :
  exists summary full w',
    try_except (fetch_wikipedia_summary P topic lang 6)
      (fun e => ret (summary_placeholder e, [])) w
    = (Ret (summary, full), w').
Proof.
  unfold try_except.
  destruct (fetch_cases topic lang 6 w) as [([s f] & w' & ->)|(m & w' & ->)];
    eexists _, _, _; reflexivity.
Qed.


End FailureFacts.



(** X15: when the output folder cannot be made, the topic is abandoned
    with that exception before Wikipedia is read or anything is
    generated. *)
Theorem folder_failure_aborts_topic
        (World : Type) (P : Platform World)
        (topic lang out_folder : str) (use_ai : bool)
        (w w1 : World) (msg : str) :
  os_makedirs P out_folder w = (Failed msg, w1) ->
  process_topic P topic lang out_folder use_ai w
  = (Raise (Exception msg), w1).
Proof.
  intros H. unfold process_topic. unfold bindM at 1. unfold call at 1.
  now rewrite H.
Qed.

Lemma folder_failure_aborts_topic_witness :
  process_topic Faults.no_folder (u "Rome") (u "en") (u "out") true []
  = (Raise (Exception (u "Permission denied")), []).
Proof.
  apply (@folder_failure_aborts_topic _ Faults.no_folder).
  reflexivity.
Defined.

(** X16: when the text file cannot be written, the topic ends with that
    exception. *)
Theorem text_write_failure_aborts_topic
        (World : Type) (P : Platform World)
        (topic lang out_folder : str) (use_ai : bool)
        (w w1 : World) (msg : str) :
  os_makedirs P out_folder w = (Returned tt, w1) ->
  (forall path chunks w', write_text P path chunks w' = (Failed msg, w')) ->
  exists w3,
    process_topic P topic lang out_folder use_ai w
    = (Raise (Exception msg), w3).
Proof.
  intros Hmk Htxt.
  destruct (summary_step_returns P topic lang w1) as (summary & full & w2 & Hs).
  destruct (@process_topic_reaches_writes _ P topic lang out_folder use_ai
              w w1 w2 summary full Hmk Hs)
    as (scripts & segments & chunks & w3 & _ & _ & _ & Hrun).
  exists w3. rewrite Hrun. unfold save_outputs, bindM, call.
  now rewrite Htxt.
Qed.

Lemma text_write_failure_aborts_topic_witness :
  exists w3,
    process_topic Faults.no_text (u "Rome") (u "en") (u "out") true []
    = (Raise (Exception (u "No space left on device")), w3).
Proof.
  apply (@text_write_failure_aborts_topic _ Faults.no_text
           (u "Rome") (u "en") (u "out") true [] [Sim.EvMakedirs (u "out")]);
    reflexivity.
Defined.

(** X17: the two files are not written atomically: when the JSON dump
    fails, the topic ends with that exception after the text file has been
    written. *)
Theorem json_failure_leaves_text_file
        (World : Type) (P : Platform World)
        (topic lang out_folder : str) (use_ai : bool)
        (w w1 : World) (msg : str) :
  os_makedirs P out_folder w = (Returned tt, w1) ->
  (forall path chunks w',
      exists w'', write_text P path chunks w' = (Returned tt, w'')) ->
  (forall path meta w', json_dump P path meta w' = (Failed msg, w')) ->
  exists chunks w3 w4,
    write_text P (txt_path P out_folder topic) chunks w3 = (Returned tt, w4)
    /\ process_topic P topic lang out_folder use_ai w
       = (Raise (Exception msg), w4).
Proof.
  intros Hmk Htxt Hjs.
  destruct (summary_step_returns P topic lang w1) as (summary & full & w2 & Hs).
  destruct (@process_topic_reaches_writes _ P topic lang out_folder use_ai
              w w1 w2 summary full Hmk Hs)
    as (scripts & segments & chunks & w3 & _ & _ & _ & Hrun).
  destruct (Htxt (txt_path P out_folder topic) chunks w3) as [w4 Hw].
  exists chunks, w3, w4. split; [exact Hw|].
  rewrite Hrun. unfold save_outputs, bindM, call. cbn [meta_topic].
  now rewrite Hw, Hjs.
Qed.

Lemma json_failure_leaves_text_file_witness :
  exists chunks w3 w4,
    write_text Faults.no_json (txt_path Faults.no_json (u "out") (u "Rome"))
      chunks w3 = (Returned tt, w4)
    /\ process_topic Faults.no_json (u "Rome") (u "en") (u "out") true []
       = (Raise (Exception (u "No space left on device")), w4).
Proof.
  apply (@json_failure_leaves_text_file _ Faults.no_json
           (u "Rome") (u "en") (u "out") true [] [Sim.EvMakedirs (u "out")]).
  - reflexivity.
  - intros path chunks w'. eexists. reflexivity.
  - reflexivity.
Defined.

Lemma process_topic_returns
        (World : Type) (P : Platform World)
        (topic lang out_folder : str) (use_ai : bool) (w : World) :
  filesystem_works P ->
  exists w',
    process_topic P topic lang out_folder use_ai w
    = (Ret (txt_path P out_folder topic, json_path P out_folder topic), w').
Proof.
  intros (Hmk & Htxt & Hjs).
  destruct (Hmk out_folder w) as [w1 Hw1].
  destruct (summary_step_returns P topic lang w1) as (summary & full & w2 & Hs).
  destruct (@process_topic_reaches_writes _ P topic lang out_folder use_ai
              w w1 w2 summary full Hw1 Hs)
    as (scripts & segments & chunks & w3 & _ & _ & _ & Hrun).
  destruct (Htxt (txt_path P out_folder topic) chunks w3) as [w4 Hw4].
  destruct (Hjs (json_path P out_folder topic)
              (mkMeta topic lang summary scripts segments) w4) as [w5 Hw5].
  exists w5. rewrite Hrun. unfold save_outputs, bindM, call, ret.
  cbn [meta_topic]. now rewrite Hw4, Hw5.
Qed.

(** X18: however Wikipedia and the generation service behave, a topic
    ends normally with its two file names whenever the file system
    works. *)
Theorem process_topic_completes
        (World : Type) (P : Platform World)
        (topic lang out_folder : str) (use_ai : bool) (w : World) :
  filesystem_works P ->
  exists w',
    process_topic P topic lang out_folder use_ai w
    = (Ret (txt_path P out_folder topic, json_path P out_folder topic), w').
Proof. apply process_topic_returns. Qed.

Lemma process_topic_completes_witness :
  exists w',
    process_topic Faults.online (u "Rome") (u "en") (u "out") false []
    = (Ret (txt_path Faults.online (u "out") (u "Rome"),
            json_path Faults.online (u "out") (u "Rome")), w').
Proof.
  apply (@process_topic_completes _ Faults.online).
  repeat split; intros; eexists; reflexivity.
Defined.


Lemma slice_upto_Z (A : Type) (l : list A) (z : Z) :
  (0 <= z)%Z -> slice l None (Some z) = firstn (Z.to_nat z) l.
Proof.
  intros H. rewrite <- (Z2Nat.id z) at 1 by assumption. apply slice_upto.
Qed.

(** X20: when reading Wikipedia returns, the package is installed, the
    language was set, the summary is the one served for the topic, and the
    page text returned with it is the first 5000 characters of the page
    (the whole page when it is shorter). *)
Theorem fetch_returns_truncated_page
        (World : Type) (P : Platform World) (topic lang : str) (n : Z)
        (w w' : World) (summary full : str) :
  fetch_wikipedia_summary P topic lang n w = (Ret (summary, full), w') ->
  WIKI_AVAILABLE P = true
  /\ (len full <= 5000)%Z
  /\ exists w1 w2 content,
      wikipedia_set_lang P lang w = (Returned tt, w1)
      /\ wikipedia_summary P topic n w1 = (Returned summary, w2)
      /\ wikipedia_page_content P topic w2 = (Returned content, w')
      /\ full = firstn (Z.to_nat 5000) content.
Proof.
  unfold fetch_wikipedia_summary, raise.
  destruct (WIKI_AVAILABLE P); cbn [negb]; [|discriminate].
  unfold bindM, call, ret.
  destruct (wikipedia_set_lang P lang w) as [[[]|m] w1] eqn:E1;
    [|discriminate].
  destruct (wikipedia_summary P topic n w1) as [[s|m] w2] eqn:E2;
    [|discriminate].
  destruct (wikipedia_page_content P topic w2) as [[c|m] w3] eqn:E3;
    [|discriminate].
  intros H. injection H as <- <- <-.
  rewrite slice_upto_Z by lia.
  split; [reflexivity|]. split.
  - unfold len. rewrite length_firstn. lia.
  - exists w1, w2, c. repeat split; assumption.
Qed.

Lemma fetch_returns_truncated_page_witness :
  WIKI_AVAILABLE Faults.online = true
  /\ (len (u "Rome was a city. It grew.") <= 5000)%Z
  /\ exists w1 w2 content,
      wikipedia_set_lang Faults.online (u "en") [] = (Returned tt, w1)
      /\ wikipedia_summary Faults.online (u "Rome") 6 w1
         = (Returned (u "Rome was a city. It grew."), w2)
      /\ wikipedia_page_content Faults.online (u "Rome") w2
         = (Returned content, [Sim.EvWiki (u "Rome")])
      /\ u "Rome was a city. It grew." = firstn (Z.to_nat 5000) content.
Proof.
  apply (@fetch_returns_truncated_page _ Faults.online (u "Rome") (u "en") 6
           [] [Sim.EvWiki (u "Rome")]).
  vm_compute. reflexivity.
Defined.

(** ** The whole run *)

(** X21: the topics of a run are the comma-separated entries of the
    option, trimmed: none is empty, none starts or ends with a blank, none
    holds a comma. *)
Theorem topics_are_trimmed (ts : str) :
  Forall (fun t => t <> [] /\ strip t = t /\ ~ In COMMA t)
    (stripped_nonempty (split COMMA ts)).
Proof.
  eapply Forall_impl; [|apply stripped_nonempty_split].
  cbn. intros t (H1 & H2 & H3 & _). now repeat split.
Qed.





(** ** The short fallback script through the segmenter *)

Section ThreeBlocks.

Implicit Types (s t : str) (c : char).

Lemma not_in_eval c s : existsb (N.eqb c) s = false -> ~ In c s.
Proof.
  intros H Hin. assert (E : existsb (N.eqb c) s = true).
  { apply existsb_exists. exists c. split; [assumption | apply N.eqb_refl]. }
  congruence.
Qed.

Lemma not_in_app c s t : ~ In c s -> ~ In c t -> ~ In c (s ++ t).
Proof. intros H1 H2 H. apply in_app_or in H. tauto. Qed.

Lemma lstrip_keeps c s : In c s -> isspace c = false -> In c (lstrip s).
Proof.
  intros Hin Hc. induction s as [|a s IH]; [contradiction|].
  cbn. destruct (isspace a) eqn:E; [|assumption].
  destruct Hin as [->|Hin]; [congruence | auto].
Qed.

(** A text with a non-blank character does not trim to nothing. *)
Lemma strip_keeps c s : In c s -> isspace c = false -> strip s <> [].
Proof.
  intros Hin Hc. assert (H : In c (strip s)).
  { unfold strip, rstrip. apply -> in_rev.
    apply lstrip_keeps; [|assumption]. apply -> in_rev.
    now apply lstrip_keeps. }
  intros E. rewrite E in H. contradiction.
Qed.

Lemma strip_leading_space s : strip (SPACE :: s) = strip s.
Proof. reflexivity. Qed.

Lemma label_ok_spec l :
  label_ok l = true ->
  ~ In DOT l /\ ~ In LF l /\ exists c, In c l /\ isspace c = false.
Proof.
  unfold label_ok. intros H.
  apply andb_prop in H as [H H3]. apply andb_prop in H as [H1 H2].
  apply negb_true_iff in H1, H2.
  split; [now apply not_in_eval|]. split; [now apply not_in_eval|].
  apply existsb_exists in H3 as (c & Hc & Hs). exists c.
  split; [assumption | now apply negb_true_iff].
Qed.

Variables (H C L1 L2 L3 p1 p2 p3 : str).

Hypothesis H_trim : strip H = H.
Hypothesis H_some : H <> [].
Hypothesis H_line : ~ In LF H.
Hypothesis C_trim : strip C = C.
Hypothesis C_some : C <> [].
Hypothesis C_line : ~ In LF C.
Hypothesis L1_ok : label_ok L1 = true.
Hypothesis L2_ok : label_ok L2 = true.
Hypothesis L3_ok : label_ok L3 = true.
Hypothesis L1_head : lstrip L1 = L1.
Hypothesis p1_ok : ~ In DOT p1 /\ ~ In LF p1.
Hypothesis p2_ok : ~ In DOT p2 /\ ~ In LF p2.
Hypothesis p3_ok : ~ In DOT p3 /\ ~ In LF p3.

Local Abbreviation body := (body_line L1 L2 L3 p1 p2 p3).

Lemma body_line_one_line : ~ In LF body.
Proof.
  destruct (@label_ok_spec L1 L1_ok) as (_ & A1 & _).
  destruct (@label_ok_spec L2 L2_ok) as (_ & A2 & _).
  destruct (@label_ok_spec L3 L3_ok) as (_ & A3 & _).
  unfold body_line.
  repeat first
    [ apply not_in_app
    | assumption
    | apply p1_ok | apply p2_ok | apply p3_ok
    | intros [E|E]; [discriminate E | revert E] ].
  easy.
Qed.

Lemma body_line_trimmed : strip body = body /\ body <> [].
Proof.
  destruct (@label_ok_spec L1 L1_ok) as (_ & _ & c & Hc & Hs).
  destruct (lstrip_fixed_cases L1_head) as [E|(c1 & r & E & Hc1)].
  - rewrite E in Hc. contradiction.
  - unfold body_line. rewrite E. cbn [app].
    split; [|discriminate].
    rewrite !app_comm_cons, !app_assoc.
    rewrite <- app_comm_cons. apply strip_between; [assumption | reflexivity].
Qed.

Lemma body_line_sentences :
  stripped_nonempty (split DOT body)
  = [strip (L1 ++ p1); strip (L2 ++ p2); strip (L3 ++ p3)].
Proof.
  destruct (@label_ok_spec L1 L1_ok) as (A1 & _ & c1 & Hc1 & Hs1).
  destruct (@label_ok_spec L2 L2_ok) as (A2 & _ & c2 & Hc2 & Hs2).
  destruct (@label_ok_spec L3 L3_ok) as (A3 & _ & c3 & Hc3 & Hs3).
  unfold body_line.
  rewrite split_app by (apply not_in_app; [assumption | apply p1_ok]).
  rewrite split_app
    by (intros [E|E]; [discriminate E|];
        revert E; apply not_in_app; [assumption | apply p2_ok]).
  rewrite split_app
    by (intros [E|E]; [discriminate E|];
        revert E; apply not_in_app; [assumption | apply p3_ok]).
  cbn [split]. unfold stripped_nonempty. cbn [filter].
  rewrite !strip_leading_space.
  assert (T1 : truthy (strip (L1 ++ p1)) = true).
  { apply truthy_nonempty, strip_keeps with (c := c1);
      [apply in_or_app; now left | assumption]. }
  assert (T2 : truthy (strip (L2 ++ p2)) = true).
  { apply truthy_nonempty, strip_keeps with (c := c2);
      [apply in_or_app; now left | assumption]. }
  assert (T3 : truthy (strip (L3 ++ p3)) = true).
  { apply truthy_nonempty, strip_keeps with (c := c3);
      [apply in_or_app; now left | assumption]. }
  rewrite T1, T2, T3. change (truthy (strip [])) with false.
  cbn [map]. rewrite !strip_leading_space. reflexivity.
Qed.

(** A script of three blocks separated by blank lines: hook, body, CTA. *)
Lemma three_blocks_lines :
  script_lines (H ++ [LF; LF] ++ body ++ [LF; LF] ++ C)
  = [H; body; C].
Proof.
  destruct body_line_trimmed as [B_trim B_some].
  unfold script_lines. cbn [app].
  rewrite split_app by assumption.
  change (split LF (LF :: body ++ LF :: LF :: C))
    with ([] :: split LF (body ++ LF :: LF :: C)).
  rewrite split_app by apply body_line_one_line.
  change (split LF (LF :: C)) with ([] :: split LF C).
  rewrite split_without by assumption.
  unfold stripped_nonempty. cbn [filter].
  rewrite H_trim, B_trim, C_trim.
  apply truthy_nonempty in H_some, B_some, C_some.
  rewrite H_some, B_some, C_some.
  change (truthy (strip [])) with false. cbn [map filter].
  now rewrite H_trim, B_trim, C_trim.
Qed.

Lemma three_blocks_segments lang :
  split_script_to_segments (H ++ [LF; LF] ++ body ++ [LF; LF] ++ C) lang
  = Ret (timed_layout H (strip (L1 ++ p1)) (strip (L2 ++ p2))
           (strip (L3 ++ p3)) C).
Proof.
  rewrite (@many_lines_eq _ lang H C [body]);
    [|discriminate | apply three_blocks_lines].
  unfold middle_sentences. cbn [flat_map]. rewrite app_nil_r.
  rewrite body_line_sentences. reflexivity.
Qed.

End ThreeBlocks.

Section ShortScript.

Variables (topic : str) (p1 p2 p3 : str).

Lemma body_literal_vi :
  u "Ý 1: " ++ p1 ++ u ". Ý 2: " ++ p2 ++ u ". Ý 3: " ++ p3 ++ u "."
  = body_line (u "Ý 1: ") (u "Ý 2: ") (u "Ý 3: ") p1 p2 p3.
Proof.
  unfold body_line.
  change (u ". Ý 2: ") with (DOT :: SPACE :: u "Ý 2: ").
  change (u ". Ý 3: ") with (DOT :: SPACE :: u "Ý 3: ").
  change (u ".") with [DOT].
  cbn [app]. rewrite <- !app_assoc. cbn [app]. rewrite <- ?app_assoc.
  reflexivity.
Qed.

Lemma body_literal_en :
  u "Point 1: " ++ p1 ++ u ". Point 2: " ++ p2 ++ u ". Point 3: " ++ p3
  ++ u "."
  = body_line (u "Point 1: ") (u "Point 2: ") (u "Point 3: ") p1 p2 p3.
Proof.
  unfold body_line.
  change (u ". Point 2: ") with (DOT :: SPACE :: u "Point 2: ").
  change (u ". Point 3: ") with (DOT :: SPACE :: u "Point 3: ").
  change (u ".") with [DOT].
  cbn [app]. rewrite <- !app_assoc. cbn [app]. rewrite <- ?app_assoc.
  reflexivity.
Qed.

Lemma hook_vi_shape :
  u "Bạn có biết về " ++ topic ++ u "?"
  = 66%N :: (u "ạn có biết về " ++ topic) ++ [63%N].
Proof.
  change (u "Bạn có biết về ") with (66%N :: u "ạn có biết về ").
  change (u "?") with [63%N]. cbn [app]. now rewrite app_assoc.
Qed.

Lemma hook_en_shape :
  u "Did you know about " ++ topic ++ u "?"
  = 68%N :: (u "id you know about " ++ topic) ++ [63%N].
Proof.
  change (u "Did you know about ") with (68%N :: u "id you know about ").
  change (u "?") with [63%N]. cbn [app]. now rewrite app_assoc.
Qed.

Hypothesis topic_line : ~ In LF topic.

Lemma short_hook_ok lang :
  strip (short_hook lang topic) = short_hook lang topic
  /\ short_hook lang topic <> []
  /\ ~ In LF (short_hook lang topic).
Proof.
  unfold short_hook. destruct (startswith lang (u "vi")).
  - split; [|split].
    + rewrite hook_vi_shape. now apply strip_between.
    + rewrite hook_vi_shape. discriminate.
    + repeat apply not_in_app; try assumption;
        apply not_in_eval; vm_compute; reflexivity.
  - split; [|split].
    + rewrite hook_en_shape. now apply strip_between.
    + rewrite hook_en_shape. discriminate.
    + repeat apply not_in_app; try assumption;
        apply not_in_eval; vm_compute; reflexivity.
Qed.

Lemma short_cta_ok lang :
  strip (short_cta lang) = short_cta lang
  /\ short_cta lang <> []
  /\ ~ In LF (short_cta lang).
Proof.
  unfold short_cta. destruct (startswith lang (u "vi"));
    (split; [vm_compute; reflexivity|]);
    (split; [apply truthy_nonempty; reflexivity|]);
    apply not_in_eval; vm_compute; reflexivity.
Qed.

Lemma point_label_ok lang i :
  label_ok (point_label lang i) = true
  /\ lstrip (point_label lang i) = point_label lang i.
Proof.
  unfold point_label.
  destruct (startswith lang (u "vi")); destruct i as [|[|i]];
    split; vm_compute; reflexivity.
Qed.

End ShortScript.

Lemma short_layout_blocks (topic summary lang s0 : str) (rest : list str) :
  sentences summary = s0 :: rest ->
  short_layout topic summary lang
  = short_hook lang topic ++ [LF; LF]
    ++ body_line (point_label lang 0) (point_label lang 1)
         (point_label lang 2) s0 (nth 1 (s0 :: rest) [])
         (nth 2 (s0 :: rest) [])
    ++ [LF; LF] ++ short_cta lang.
Proof.
  intros E. unfold short_layout, short_hook, short_cta, point_label.
  rewrite E. destruct (startswith lang (u "vi")).
  - now rewrite body_literal_vi.
  - now rewrite body_literal_en.
Qed.

(** X24: the short fallback script passes through the segmenter as it was
    built: for a topic on one line and a summary with at least one
    sentence, the hook and the CTA of the segments are the first and the
    last line of the script, and the three points are the three labelled
    points of its body line, trimmed ("Point 2:" alone when the summary has
    no second sentence). *)
Theorem short_fallback_segments (topic summary lang lang' : str) :
  ~ In LF topic ->
  sentences summary <> [] ->
  let sents := sentences summary in
  exists script,
    local_fallback_formatter_short topic summary lang = Ret script
    /\ split_script_to_segments script lang'
       = Ret (timed_layout (short_hook lang topic)
                (strip (point_label lang 0 ++ nth 0 sents []))
                (strip (point_label lang 1 ++ nth 1 sents []))
                (strip (point_label lang 2 ++ nth 2 sents []))
                (short_cta lang)).
Proof.
  intros Htopic Hne sents.
  destruct (sentences summary) as [|s0 rest] eqn:E; [congruence|].
  eexists. split; [apply short_formatter_eq|].
  rewrite (@short_layout_blocks topic summary lang s0 rest E). subst sents.
  pose proof (sentences_clean summary) as Hall.
  fold (sentences summary) in Hall. rewrite E in Hall.
  rewrite Forall_forall in Hall.
  assert (Hnth : forall i,
             ~ In DOT (nth i (s0 :: rest) []) /\ ~ In LF (nth i (s0 :: rest) [])).
  { intros i. destruct (nth_in_or_default i (s0 :: rest) []) as [Hin | ->];
      [|split; easy].
    destruct (Hall _ Hin) as (_ & _ & H1 & H2). now split. }
  destruct (@short_hook_ok topic Htopic lang) as (Hh1 & Hh2 & Hh3).
  destruct (short_cta_ok lang) as (Hc1 & Hc2 & Hc3).
  change s0 with (nth 0 (s0 :: rest) []) at 1.
  apply three_blocks_segments; try assumption;
    try apply point_label_ok; apply Hnth.
Qed.

Lemma short_fallback_segments_witness :
  exists script,
    local_fallback_formatter_short (u "Rome") (u "Old. Big.") (u "en")
    = Ret script
    /\ split_script_to_segments script (u "en")
       = Ret (timed_layout (short_hook (u "en") (u "Rome"))
                (strip (point_label (u "en") 0
                        ++ nth 0 (sentences (u "Old. Big.")) []))
                (strip (point_label (u "en") 1
                        ++ nth 1 (sentences (u "Old. Big.")) []))
                (strip (point_label (u "en") 2
                        ++ nth 2 (sentences (u "Old. Big.")) []))
                (short_cta (u "en"))).
Proof.
  apply (@short_fallback_segments (u "Rome") (u "Old. Big.") (u "en") (u "en")).
  - apply not_in_eval. vm_compute. reflexivity.
  - vm_compute. discriminate.
Defined.
